(** * Battery dashboard: the health model, the alert flag and the block grid

    A shallow embedding of the two Streamlit scripts [app.py] and
    [editapp.py].  Each script is a straight-line program that the host
    framework re-runs on every interaction; one run is modelled as a
    function from the widget values and the ambient state (session flag,
    random generators) to the values handed to the display calls and the
    new ambient state.

    Number model.  Python's [int] is [Z].  Python's [float] is idealised as
    an exact rational ([Q]): [1.2 ** n] is the rational power, the
    arithmetic is exact and comparisons are the rational order.  Equality of
    computed numbers is therefore [Qeq] ([==]).  Rounding is not modelled.
    Display formatting ([f"{x:.1f}%"]) and chart styling are left out. *)

From Stdlib Require Import ZArith QArith Qpower Qminmax List Lia Lqa Bool.
From Stdlib Require String DecimalString.
Import String.StringSyntax.
Delimit Scope string_scope with string.
Import ListNotations.
Open Scope Q_scope.

(** ** Python built-ins used by the scripts *)

Module Py.

(** [a < b] on floats. *)
Definition ltb (a b : Q) : bool := negb (Qle_bool b a).

(** [max(a, b)]: the first argument unless the second is larger. *)
Definition max (a b : Q) : Q := if ltb a b then b else a.

(** [min(a, b)]: the first argument unless the second is smaller. *)
Definition min (a b : Q) : Q := if ltb b a then b else a.

(** [range(n)] and [np.arange(lo, hi)]. *)
Definition range (n : nat) : list Z := map Z.of_nat (seq 0 n).
Definition arange (lo hi : nat) : list Z := map Z.of_nat (seq lo (hi - lo)).

(** [str(n)] for an integer, as used inside an f-string. *)
Definition str (n : Z) : String.string :=
  DecimalString.NilZero.string_of_int (Z.to_int n).

(** A random generator, seen as the sequence of values it will return and
    the number of values already taken. *)
Record Source (A : Type) : Type := mkSource { feed : nat -> A; cursor : nat }.
Arguments mkSource {A} _ _.
Arguments feed {A} _ _.
Arguments cursor {A} _.

Definition draw {A : Type} (s : Source A) : A * Source A :=
  (feed s (cursor s), mkSource (feed s) (S (cursor s))).

(** Rows of [cols] consecutive elements. *)
Fixpoint rows_of (nrows cols : nat) (l : list Q) : list (list Q) :=
  match nrows with
  | O => []
  | S k => firstn cols l :: rows_of k cols (skipn cols l)
  end.

(** [np.array(l).reshape(r, c)]: row-major; an error unless [l] has
    exactly [r * c] elements. *)
Definition reshape (r c : nat) (l : list Q) : option (list (list Q)) :=
  if Nat.eqb (length l) (r * c) then Some (rows_of r c l) else None.

End Py.

(** ** Values shared by both scripts *)

Inductive Status : Type := CRITICAL | WARNING | HEALTHY.

Definition Status_eqb (a b : Status) : bool :=
  match a, b with
  | CRITICAL, CRITICAL | WARNING, WARNING | HEALTHY, HEALTHY => true
  | _, _ => false
  end.

(** What a run sends to the notification surface. *)
Inductive Emission : Type :=
| ToastCritical
| AudioBeep
| ToastWarning (months_to_decay : Z).

(** The lines that are the same in the two files, with the two constants
    in which the files differ as section variables. *)
Section Calculations.

(** Multiplier of [time_projection] in [current_health]. *)
Variable base_rate : Z.
(** Bound of the [WARNING] band. *)
Variable warning_below : Q.

(** [degradation_factor = 1.2 ** (temp_input - 25)] *)
Definition degradation_factor (temp_input : Z) : Q :=
  1.2 ^ (temp_input - 25).

(** [100 - (time_projection * k * degradation_factor)] *)
Definition raw_health (time_projection : Z) (df : Q) : Q :=
  100 - inject_Z (time_projection * base_rate) * df.

(** [current_health = max(0, min(100, current_health))] *)
Definition current_health (temp_input time_projection : Z) : Q :=
  Py.max 0 (Py.min 100 (raw_health time_projection (degradation_factor temp_input))).

(** The chain [< 50], [< warning_below], else. *)
Definition status (h : Q) : Status :=
  if Py.ltb h 50 then CRITICAL
  else if Py.ltb h warning_below then WARNING
  else HEALTHY.

(** [total_risk = (100 - current_health) * 31 * (replacement_cost / 100)] *)
Definition total_risk (h : Q) (replacement_cost : Z) : Q :=
  (100 - h) * 31 * (inject_Z replacement_cost / 100).

(** [months = np.arange(0, 25)] *)
Definition months : list Z := Py.arange 0 25.

(** [health_curve = 100 - (months * 2 * degradation_factor)] *)
Definition health_curve (df : Q) : list Q :=
  map (fun m => 100 - inject_Z (m * 2) * df) months.

(** One iteration of the grid loop: the value appended to [grid_health]. *)
Definition block_health (time_projection : Z) (df individual_variance : Q) : Q :=
  100 - inject_Z (time_projection * 8) * df * individual_variance.

(** [for i in range(30): ... grid_health.append(max(0, block_health))],
    with [np.random.uniform(0.8, 1.2)] drawn from [np]. *)
Fixpoint grid_loop (iters : list Z) (time_projection : Z) (df : Q)
         (grid_health : list Q) (np : Py.Source Q) : list Q * Py.Source Q :=
  match iters with
  | [] => (grid_health, np)
  | _ :: rest =>
      let (individual_variance, np') := Py.draw np in
      grid_loop rest time_projection df
        (grid_health ++ [Py.max 0 (block_health time_projection df individual_variance)])
        np'
  end.

Definition grid_health (time_projection : Z) (df : Q) (np : Py.Source Q)
  : list Q * Py.Source Q :=
  grid_loop (Py.range 30) time_projection df [] np.

(** [grid_data = np.array(grid_health).reshape(6, 5)] *)
Definition grid_data (flat : list Q) : option (list (list Q)) :=
  Py.reshape 6 5 flat.

End Calculations.

(** The documented widget bounds. *)
Definition temp_ok (temp_input : Z) : Prop := (20 <= temp_input <= 40)%Z.
Definition years_ok (year_max time_projection : Z) : Prop :=
  (1 <= time_projection <= year_max)%Z.
Definition cost_ok (replacement_cost : Z) : Prop := (0 <= replacement_cost)%Z.
Definition jitter_ok (v : Q) : Prop := 0.8 <= v <= 1.2.

(** What one run shows. *)
Record Display : Type := mkDisplay {
  shown_health : Q;
  shown_status : Status;
  shown_risk : Q;
  shown_gauge : Q;
  shown_emissions : list Emission;
  shown_curve : list (Z * Q);
  shown_grid : option (list (list Q))
}.

(** ** [app.py] *)

Module App.

Definition base_rate : Z := 8.
Definition warning_below : Q := 75.
Definition year_max : Z := 9.

Definition current_health := current_health base_rate.
Definition status := status warning_below.

(** One run of the script. *)
Definition run (temp_input time_projection replacement_cost : Z)
           (np : Py.Source Q) : Display * Py.Source Q :=
  let df := degradation_factor temp_input in
  let h := current_health temp_input time_projection in
  let (flat, np') := grid_health time_projection df np in
  (mkDisplay h (status h) (total_risk h replacement_cost) (100 - h) []
     (combine months (health_curve df)) (grid_data flat),
   np').

End App.

(** ** [editapp.py] *)

Module EditApp.

Definition base_rate : Z := 6.
Definition warning_below : Q := 60.
Definition year_max : Z := 10.

Definition current_health := current_health base_rate.
Definition status := status warning_below.

(** [st.session_state]: the only key in use is ['last_status'];
    [None] is the key being absent. *)
Record SessionState : Type := mkSession { last_status : option Status }.

Definition fresh_session : SessionState := mkSession None.

(** [st.session_state.get('last_status') != s] *)
Definition last_status_differs (ss : SessionState) (s : Status) : bool :=
  match last_status ss with
  | Some r => negb (Status_eqb r s)
  | None => true
  end.

(** What the run reads and writes besides the widgets. *)
Record World : Type := mkWorld {
  session : SessionState;
  py_random : Py.Source Z;   (* random.randint(4, 7) *)
  np_random : Py.Source Q    (* np.random.uniform(0.8, 1.2) *)
}.

(** The [with col2:] block: the status chain with the alerts in its
    branches.  Returns the status, what was emitted, and the new session
    state and [random] generator. *)
Definition col2 (h : Q) (ss : SessionState) (rnd : Py.Source Z)
  : Status * list Emission * SessionState * Py.Source Z :=
  if Py.ltb h 50 then
    if last_status_differs ss CRITICAL
    then (CRITICAL, [ToastCritical; AudioBeep], mkSession (Some CRITICAL), rnd)
    else (CRITICAL, [], ss, rnd)
  else if Py.ltb h 60 then
    if last_status_differs ss WARNING
    then let (months_to_decay, rnd') := Py.draw rnd in
         (WARNING, [ToastWarning months_to_decay], mkSession (Some WARNING), rnd')
    else (WARNING, [], ss, rnd)
  else (HEALTHY, [], mkSession (Some HEALTHY), rnd).

Definition col2_status (r : Status * list Emission * SessionState * Py.Source Z)
  : Status := fst (fst (fst r)).
Definition col2_emitted (r : Status * list Emission * SessionState * Py.Source Z)
  : list Emission := snd (fst (fst r)).
Definition col2_session (r : Status * list Emission * SessionState * Py.Source Z)
  : SessionState := snd (fst r).

(** The session states that runs can leave behind, from a new session. *)
Inductive reachable : SessionState -> Prop :=
| reach_fresh : reachable fresh_session
| reach_run h ss rnd :
    reachable ss -> reachable (col2_session (col2 h ss rnd)).

(** [available_blocks = [f"Block_{i+1}" for i in range(30)]] *)
Definition available_blocks : list String.string :=
  map (fun i => String.append "Block_"%string (Py.str (i + 1))) (Py.range 30).

(** The select box returns the chosen option; the widget only offers
    positions of [options], the first one by default. *)
Definition selectbox (options : list String.string) (choice : nat)
  : String.string :=
  nth choice options (hd String.EmptyString options).

(** One run of the script. *)
Definition run (choice : nat) (temp_input time_projection replacement_cost : Z)
           (w : World) : Display * World :=
  let selected_block := selectbox available_blocks choice in
  let df := degradation_factor temp_input in
  let h := current_health temp_input time_projection in
  let '(st, emitted, ss', rnd') := col2 h (session w) (py_random w) in
  let (flat, np') := grid_health time_projection df (np_random w) in
  (mkDisplay h st (total_risk h replacement_cost) (100 - h) emitted
     (combine months (health_curve df)) (grid_data flat),
   mkWorld ss' rnd' np').

(** The widget values of one interaction. *)
Record Inputs : Type := mkInputs {
  in_block : nat;
  in_temp : Z;
  in_years : Z;
  in_cost : Z
}.

(** The widget values other than the block selector. *)
Definition sliders (i : Inputs) : Z * Z * Z := (in_temp i, in_years i, in_cost i).

(** A session: the script is re-run for each interaction in turn, on the
    world the previous run left. *)
Fixpoint play (ins : list Inputs) (w : World) : list Display :=
  match ins with
  | [] => []
  | i :: rest =>
      let (d, w') := run (in_block i) (in_temp i) (in_years i) (in_cost i) w in
      d :: play rest w'
  end.

End EditApp.

(** ** Vocabulary of the statements *)

(** [h] is [raw] clamped below at 0 and above at 100. *)
Definition clamped_0_100 (raw h : Q) : Prop :=
  0 <= h <= 100 /\
  (raw < 0 -> h == 0) /\
  (100 < raw -> h == 100) /\
  (0 <= raw <= 100 -> h == raw).

(** The value the grid loop appends at its iteration [i], when it starts
    with the generator [np]. *)
Definition appended (time_projection : Z) (df : Q) (np : Py.Source Q) (i : nat) : Q :=
  Py.max 0 (block_health time_projection df (Py.feed np (Py.cursor np + i))).

(** The alerts of a session read off the statuses alone: what the runs
    emit, one list per run, when the statuses they compute are [statuses],
    the flag starts as [last] and [random] starts as [rnd]. *)
Fixpoint alerts_of (statuses : list Status) (last : option Status)
         (rnd : Py.Source Z) : list (list Emission) :=
  match statuses with
  | [] => []
  | CRITICAL :: rest =>
      match last with
      | Some CRITICAL => [] :: alerts_of rest last rnd
      | _ => [ToastCritical; AudioBeep] :: alerts_of rest (Some CRITICAL) rnd
      end
  | WARNING :: rest =>
      match last with
      | Some WARNING => [] :: alerts_of rest last rnd
      | _ => [ToastWarning (Py.feed rnd (Py.cursor rnd))]
               :: alerts_of rest (Some WARNING) (snd (Py.draw rnd))
      end
  | HEALTHY :: rest => [] :: alerts_of rest (Some HEALTHY) rnd
  end.

(** ** The display calls

    The arguments the scripts pass to the chart and label calls, for the
    parts that are computed or that must fit the computed data. *)

Inductive Color : Type := red | orange | green | black.

Inductive Icon : Type := siren | warning_sign | check_mark.

(** [range(lo, hi)] with two arguments. *)
Definition range_from (lo hi : nat) : list Z := Py.arange lo hi.

Module Show.

(** [gauge = {'axis': {'range': [0, 100]}, ...}] *)
Definition gauge_axis : Q * Q := (0, 100).

(** ['steps': [{'range': [0, 50], 'color': "green"}, ...]] *)
Definition gauge_steps : list (Q * Q * Color) :=
  [ (0, 50, green); (50, 80, orange); (80, 100, red) ].

(** The step ranges are closed intervals of the axis. *)
Definition in_step (v : Q) (st : Q * Q * Color) : Prop :=
  fst (fst st) <= v <= snd (fst st).

(** [line=dict(color='red' if current_health < 50 else 'green')] *)
Definition line_color (current_health : Q) : Color :=
  if Py.ltb current_health 50 then red else green.

(** [fig_line.add_hline(y=50, ...)] and [yaxis_range=[0,110]] *)
Definition failure_threshold : Q := 50.
Definition yaxis_range : Q * Q := (0, 110).

(** [x=[f"Col {i}" for i in range(1,6)]], [y=[f"Row {i}" for i in range(1,7)]] *)
Definition heat_x : list String.string :=
  map (fun i => String.append "Col "%string (Py.str i)) (range_from 1 6).
Definition heat_y : list String.string :=
  map (fun i => String.append "Row "%string (Py.str i)) (range_from 1 7).

(** [zmin=0, zmax=100] *)
Definition heat_range : Q * Q := (0, 100).

(** [app.py], the colour of the status label:
    ['red' if status=='CRITICAL' else 'orange' if status=='WARNING' else 'green'] *)
Definition app_status_color (status : Status) : Color :=
  if Status_eqb status CRITICAL then red
  else if Status_eqb status WARNING then orange
  else green.

(** [editapp.py], the [icon] and [color] assigned in the branches of the
    status chain. *)
Definition editapp_icon_color (current_health : Q) : Icon * Color :=
  if Py.ltb current_health 50 then (siren, red)
  else if Py.ltb current_health 60 then (warning_sign, orange)
  else (check_mark, green).

End Show.

(** The product [time_projection * degradation_factor] that both the
    headline health and the grid values scale by their rate. *)
Definition year_factor (time_projection temp_input : Z) : Q :=
  inject_Z time_projection * degradation_factor temp_input.

(** Severity of a status, for comparing the two scripts. *)
Definition severity (s : Status) : nat :=
  match s with HEALTHY => 0 | WARNING => 1 | CRITICAL => 2 end.

(** * Properties *)

(** ** Comparisons, [max] and [min] *)

Section PyFacts.

Lemma ltb_lt (a b : Q) : Py.ltb a b = true <-> a < b.
Proof.
  unfold Py.ltb. rewrite negb_true_iff.
  destruct (Qle_bool b a) eqn:E.
  - apply Qle_bool_iff in E. split; [discriminate | intro H; exfalso; lra].
  - split; [intros _ | reflexivity].
    apply Qnot_le_lt. intro H. apply Qle_bool_iff in H. congruence.
Qed.

Lemma ltb_ge (a b : Q) : Py.ltb a b = false <-> b <= a.
Proof.
  destruct (Py.ltb a b) eqn:E.
  - apply ltb_lt in E. split; [discriminate | intro; exfalso; lra].
  - split; [intros _ | reflexivity].
    apply Qnot_lt_le. intro H. apply ltb_lt in H. congruence.
Qed.

Lemma max_spec (a b : Q) :
  (a < b /\ Py.max a b = b) \/ (b <= a /\ Py.max a b = a).
Proof.
  unfold Py.max. destruct (Py.ltb a b) eqn:E.
  - left. apply ltb_lt in E. auto.
  - right. apply ltb_ge in E. auto.
Qed.

Lemma min_spec (a b : Q) :
  (b < a /\ Py.min a b = b) \/ (a <= b /\ Py.min a b = a).
Proof.
  unfold Py.min. destruct (Py.ltb b a) eqn:E.
  - left. apply ltb_lt in E. auto.
  - right. apply ltb_ge in E. auto.
Qed.

Lemma max_Qmax (a b : Q) : Py.max a b == Qmax a b.
Proof.
  destruct (max_spec a b) as [[H ->] | [H ->]].
  - symmetry. apply Q.max_r. lra.
  - symmetry. apply Q.max_l. exact H.
Qed.

Lemma min_Qmin (a b : Q) : Py.min a b == Qmin a b.
Proof.
  destruct (min_spec a b) as [[H ->] | [H ->]].
  - symmetry. apply Q.min_r. lra.
  - symmetry. apply Q.min_l. exact H.
Qed.

(** [max(0, min(100, x))] is [x] brought into [0, 100]. *)
Lemma clamp_cases (x : Q) :
  let h := Py.max 0 (Py.min 100 x) in
  0 <= h <= 100 /\
  (x < 0 -> h == 0) /\
  (100 < x -> h == 100) /\
  (0 <= x <= 100 -> h == x).
Proof.
  cbv zeta.
  destruct (min_spec 100 x) as [[H1 ->] | [H1 ->]];
    [destruct (max_spec 0 x) as [[H2 ->] | [H2 ->]]
    | destruct (max_spec 0 100) as [[H2 ->] | [H2 ->]]];
    repeat split; intros; lra.
Qed.

End PyFacts.

(** ** The degradation factor *)

Section DegradationFactor.

Lemma df_pos (t : Z) : 0 < degradation_factor t.
Proof. unfold degradation_factor. apply Qpower_0_lt. reflexivity. Qed.

Lemma df_increasing (t1 t2 : Z) :
  (t1 < t2)%Z -> degradation_factor t1 < degradation_factor t2.
Proof.
  intro H. unfold degradation_factor.
  apply Qpower_lt_compat_l; [lia | reflexivity].
Qed.

Lemma df_at_25 : degradation_factor 25 == 1.
Proof. reflexivity. Qed.

(** The factor at the coldest slider position. *)
Lemma df_at_20 : degradation_factor 20 == 3125 # 7776.
Proof. reflexivity. Qed.

Lemma df_lower (t : Z) : (20 <= t)%Z -> (3125 # 7776) <= degradation_factor t.
Proof.
  intro H. rewrite <- df_at_20.
  destruct (Z.eq_dec t 20) as [-> | Hne]; [apply Qle_refl |].
  apply Qlt_le_weak, df_increasing. lia.
Qed.

End DegradationFactor.

(** ** Health and status *)

Section Health.

Lemma raw_health_formula (k y : Z) (df : Q) :
  raw_health k y df == 100 - inject_Z y * inject_Z k * df.
Proof. unfold raw_health. rewrite inject_Z_mult. ring. Qed.

Lemma current_health_clamped (k t y : Z) :
  clamped_0_100 (100 - inject_Z y * inject_Z k * 1.2 ^ (t - 25))
                (current_health k t y).
Proof.
  unfold current_health, degradation_factor.
  pose proof (raw_health_formula k y (1.2 ^ (t - 25))) as E.
  pose proof (clamp_cases (raw_health k y (1.2 ^ (t - 25)))) as C.
  cbv zeta in C. destruct C as (Hb & Hlo & Hhi & Hmid).
  split; [exact Hb |].
  split; [| split]; intro H.
  - apply Hlo. rewrite E. exact H.
  - apply Hhi. rewrite E. exact H.
  - rewrite <- E. apply Hmid. rewrite E. exact H.
Qed.

Lemma status_bands (w h : Q) :
  50 <= w ->
  (status w h = CRITICAL <-> h < 50) /\
  (status w h = WARNING <-> 50 <= h /\ h < w) /\
  (status w h = HEALTHY <-> w <= h).
Proof.
  intro Hw. unfold status.
  destruct (Py.ltb h 50) eqn:E1; [apply ltb_lt in E1 | apply ltb_ge in E1];
    [| destruct (Py.ltb h w) eqn:E2; [apply ltb_lt in E2 | apply ltb_ge in E2]];
    repeat split; intros; try discriminate; try lra; try reflexivity.
Qed.

(** The status chain of [editapp.py] sits inside [col2]; its result is
    the same threshold function. *)
Lemma col2_status_eq (h : Q) ss rnd :
  EditApp.col2_status (EditApp.col2 h ss rnd) = EditApp.status h.
Proof.
  unfold EditApp.col2, EditApp.status, status, EditApp.warning_below,
    EditApp.col2_status.
  destruct (Py.ltb h 50); [destruct (EditApp.last_status_differs ss CRITICAL); reflexivity |].
  destruct (Py.ltb h 60); [| reflexivity].
  destruct (EditApp.last_status_differs ss WARNING); reflexivity.
Qed.

End Health.

(** ** What a run shows *)

Section Runs.

Lemma app_run_shows t y c np :
  let d := fst (App.run t y c np) in
  let h := App.current_health t y in
  shown_health d = h /\
  shown_status d = App.status h /\
  shown_risk d = total_risk h c /\
  shown_emissions d = [] /\
  shown_curve d = combine months (health_curve (degradation_factor t)) /\
  shown_grid d = grid_data (fst (grid_health y (degradation_factor t) np)).
Proof.
  unfold App.run. destruct (grid_health y (degradation_factor t) np).
  cbn. repeat split.
Qed.

Lemma editapp_run_shows b t y c w :
  let d := fst (EditApp.run b t y c w) in
  let h := EditApp.current_health t y in
  let a := EditApp.col2 h (EditApp.session w) (EditApp.py_random w) in
  shown_health d = h /\
  shown_status d = EditApp.status h /\
  shown_risk d = total_risk h c /\
  shown_emissions d = EditApp.col2_emitted a /\
  shown_curve d = combine months (health_curve (degradation_factor t)) /\
  shown_grid d = grid_data (fst (grid_health y (degradation_factor t) (EditApp.np_random w))) /\
  EditApp.session (snd (EditApp.run b t y c w)) = EditApp.col2_session a.
Proof.
  cbv zeta. rewrite <- (col2_status_eq _ (EditApp.session w) (EditApp.py_random w)).
  unfold EditApp.run.
  destruct (EditApp.col2 _ _ _) as [[[s e] ss'] r'].
  destruct (grid_health y (degradation_factor t) (EditApp.np_random w)).
  cbn. repeat split.
Qed.

End Runs.

(** C1.  Within the slider bounds the displayed health lies in [0, 100]
    in both scripts, being [100 - years * rate * 1.2^(temp - 25)] clamped
    below at 0 and above at 100 (rate 8 in [app.py], 6 in [editapp.py]);
    at 40 degrees and 9 years with rate 8 the unclamped value is negative,
    the health is 0 and the status is CRITICAL. *)
Theorem health_percent_clamped :
  (forall (t y c : Z) np, temp_ok t -> years_ok App.year_max y -> cost_ok c ->
     clamped_0_100 (100 - inject_Z y * 8 * 1.2 ^ (t - 25))
                   (shown_health (fst (App.run t y c np)))) /\
  (forall b (t y c : Z) w, temp_ok t -> years_ok EditApp.year_max y -> cost_ok c ->
     clamped_0_100 (100 - inject_Z y * 6 * 1.2 ^ (t - 25))
                   (shown_health (fst (EditApp.run b t y c w)))) /\
  (forall c np,
     let d := fst (App.run 40 9 c np) in
     100 - 9 * 8 * 1.2 ^ (40 - 25) < 0 /\
     shown_health d == 0 /\ shown_status d = CRITICAL).
Proof.
  split; [| split].
  - intros t y c np _ _ _.
    destruct (app_run_shows t y c np) as (-> & _).
    apply (current_health_clamped 8 t y).
  - intros b t y c w _ _ _.
    destruct (editapp_run_shows b t y c w) as (-> & _).
    apply (current_health_clamped 6 t y).
  - intros c np d. subst d.
    destruct (app_run_shows 40 9 c np) as (-> & -> & _).
    split; [reflexivity | split; reflexivity].
Qed.

Lemma health_percent_clamped_witness :
  temp_ok 30 /\ years_ok App.year_max 2 /\ years_ok EditApp.year_max 2 /\ cost_ok 500 /\
  clamped_0_100 (100 - inject_Z 2 * 8 * 1.2 ^ (30 - 25))
    (shown_health (fst (App.run 30 2 500 (Py.mkSource (fun _ => 1) 0)))) /\
  clamped_0_100 (100 - inject_Z 2 * 6 * 1.2 ^ (30 - 25))
    (shown_health (fst (EditApp.run 0 30 2 500
       (EditApp.mkWorld EditApp.fresh_session (Py.mkSource (fun _ => 5%Z) 0)
                        (Py.mkSource (fun _ => 1) 0))))).
Proof.
  assert (Ht : temp_ok 30) by (unfold temp_ok; lia).
  assert (Hy1 : years_ok App.year_max 2) by (unfold years_ok, App.year_max; lia).
  assert (Hy2 : years_ok EditApp.year_max 2) by (unfold years_ok, EditApp.year_max; lia).
  assert (Hc : cost_ok 500) by (unfold cost_ok; lia).
  split; [exact Ht | split; [exact Hy1 | split; [exact Hy2 | split; [exact Hc | split]]]].
  - exact (proj1 health_percent_clamped 30%Z 2%Z 500%Z _ Ht Hy1 Hc).
  - exact (proj1 (proj2 health_percent_clamped) 0%nat 30%Z 2%Z 500%Z _ Ht Hy2 Hc).
Defined.

(** C2.  In both scripts the status is a threshold function of the health:
    CRITICAL exactly below 50, WARNING exactly from 50 up to the bound (75
    in [app.py], 60 in [editapp.py]), HEALTHY otherwise; in [editapp.py]
    whatever the session flag and the random generator are. *)
Theorem status_is_threshold_function :
  forall h : Q, 0 <= h <= 100 ->
    ((App.status h = CRITICAL <-> h < 50) /\
     (App.status h = WARNING <-> 50 <= h /\ h < 75) /\
     (App.status h = HEALTHY <-> 75 <= h)) /\
    (forall ss rnd,
       let s := EditApp.col2_status (EditApp.col2 h ss rnd) in
       (s = CRITICAL <-> h < 50) /\
       (s = WARNING <-> 50 <= h /\ h < 60) /\
       (s = HEALTHY <-> 60 <= h)).
Proof.
  intros h _. split.
  - apply status_bands. unfold App.warning_below. lra.
  - intros ss rnd s. subst s. rewrite col2_status_eq.
    apply status_bands. unfold EditApp.warning_below. lra.
Qed.

Lemma status_is_threshold_function_witness :
  0 <= 58 <= 100 /\
  App.status 58 = WARNING /\
  EditApp.col2_status
    (EditApp.col2 58 EditApp.fresh_session (Py.mkSource (fun _ => 5%Z) 0)) = WARNING.
Proof.
  assert (H : 0 <= 58 <= 100) by (split; discriminate).
  pose proof (status_is_threshold_function 58 H) as [(_ & Ha & _) Hb].
  split; [exact H | split].
  - apply Ha. split; [discriminate | reflexivity].
  - apply (Hb EditApp.fresh_session (Py.mkSource (fun _ => 5%Z) 0)).
    split; [discriminate | reflexivity].
Defined.

(** C6, as stated, fails below 25 degrees: the factor does not decrease as
    the temperature rises from 20 to 21. *)
Lemma degradation_not_decreasing_below_25 :
  ~ (forall t1 t2 : Z, temp_ok t1 -> temp_ok t2 -> (t1 < t2)%Z -> (t2 < 25)%Z ->
       degradation_factor t2 < degradation_factor t1).
Proof.
  intro H.
  assert (C : degradation_factor 21 < degradation_factor 20).
  { apply H; unfold temp_ok; lia. }
  vm_compute in C. discriminate C.
Qed.

(** C6, amended.  The factor is exactly 1 at 25 degrees and strictly
    increasing in the temperature over the whole slider range; it is
    above 1 above 25 degrees and below 1 below 25 degrees. *)
Theorem degradation_factor_monotone :
  degradation_factor 25 == 1 /\
  (forall t1 t2 : Z, temp_ok t1 -> temp_ok t2 -> (t1 < t2)%Z ->
     degradation_factor t1 < degradation_factor t2) /\
  (forall t : Z, temp_ok t ->
     ((25 < t)%Z -> 1 < degradation_factor t) /\
     ((t < 25)%Z -> 0 < degradation_factor t < 1)).
Proof.
  split; [exact df_at_25 | split].
  - intros t1 t2 _ _. apply df_increasing.
  - intros t _. split; intro H.
    + rewrite <- df_at_25. apply df_increasing. exact H.
    + split; [apply df_pos |].
      rewrite <- df_at_25. apply df_increasing. exact H.
Qed.

Lemma degradation_factor_monotone_witness :
  temp_ok 22 /\ temp_ok 31 /\ (22 < 31)%Z /\
  degradation_factor 22 < degradation_factor 31 /\
  1 < degradation_factor 31 /\ 0 < degradation_factor 22 < 1.
Proof.
  assert (H1 : temp_ok 22) by (unfold temp_ok; lia).
  assert (H2 : temp_ok 31) by (unfold temp_ok; lia).
  assert (H3 : (22 < 31)%Z) by lia.
  destruct degradation_factor_monotone as (_ & Hm & Hs).
  split; [exact H1 | split; [exact H2 | split; [exact H3 | split; [| split]]]].
  - exact (Hm 22%Z 31%Z H1 H2 H3).
  - apply (proj1 (Hs 31%Z H2)). lia.
  - apply (proj2 (Hs 22%Z H1)). lia.
Defined.

(** ** Risk value *)

Section Risk.

Lemma total_risk_zero (h : Q) (c : Z) :
  total_risk h c == 0 <-> h == 100 \/ c = 0%Z.
Proof.
  unfold total_risk. split.
  - intro H.
    assert (P : (100 - h) * inject_Z c == 0).
    { setoid_replace ((100 - h) * inject_Z c)
        with ((100 - h) * 31 * (inject_Z c / 100) * (100 / 31)) by field.
      rewrite H. ring. }
    apply Qmult_integral in P. destruct P as [P | P].
    + left. lra.
    + right. apply inject_Z_injective. exact P.
  - intros [H | ->].
    + rewrite H. field.
    + field.
Qed.

Lemma years_rate_factor_pos (k t y : Z) :
  (0 < k)%Z -> (1 <= y)%Z -> 0 < inject_Z y * inject_Z k * degradation_factor t.
Proof.
  intros Hk Hy.
  pose proof (df_pos t) as Hd.
  assert (Hy' : 0 < inject_Z y) by (unfold Qlt; simpl; lia).
  assert (Hk' : 0 < inject_Z k) by (unfold Qlt; simpl; lia).
  apply Qmult_lt_0_compat; [apply Qmult_lt_0_compat |]; assumption.
Qed.

(** With at least one projected year the health shown is below 100. *)
Lemma current_health_below_100 (k t y : Z) :
  (0 < k)%Z -> (1 <= y)%Z -> current_health k t y < 100.
Proof.
  intros Hk Hy.
  pose proof (years_rate_factor_pos k t y Hk Hy) as P.
  unfold degradation_factor in P.
  destruct (current_health_clamped k t y) as (Hb & Hlo & _ & Hmid).
  set (raw := 100 - inject_Z y * inject_Z k * 1.2 ^ (t - 25)) in *.
  assert (R : raw < 100) by (unfold raw; lra).
  destruct (Qlt_le_dec raw 0) as [L | L].
  - rewrite (Hlo L). reflexivity.
  - rewrite Hmid; [exact R | lra].
Qed.

End Risk.

(** C5, as stated, fails when the cost is 0: at 25 degrees and 1 year
    [app.py] shows health 92 and risk 0. *)
Lemma risk_zero_without_full_health :
  ~ (forall (t y c : Z) np, temp_ok t -> years_ok App.year_max y -> cost_ok c ->
       let d := fst (App.run t y c np) in
       shown_risk d == 0 <-> shown_health d == 100).
Proof.
  intro H.
  assert (C : shown_health (fst (App.run 25 1 0 (Py.mkSource (fun _ => 1) 0))) == 100).
  { apply H.
    - unfold temp_ok; lia.
    - unfold years_ok, App.year_max; lia.
    - unfold cost_ok; lia.
    - reflexivity. }
  vm_compute in C. discriminate C.
Qed.

(** C5, amended.  In both scripts the risk shown is
    [(100 - health) * 31 * (cost / 100)], and it is 0 exactly when the
    health shown is 100 or the cost is 0. *)
Theorem risk_value_formula_and_zero :
  (forall (t y c : Z) np, temp_ok t -> years_ok App.year_max y -> cost_ok c ->
     let d := fst (App.run t y c np) in
     shown_risk d == (100 - shown_health d) * 31 * (inject_Z c / 100) /\
     (shown_risk d == 0 <-> shown_health d == 100 \/ c = 0%Z)) /\
  (forall b (t y c : Z) w, temp_ok t -> years_ok EditApp.year_max y -> cost_ok c ->
     let d := fst (EditApp.run b t y c w) in
     shown_risk d == (100 - shown_health d) * 31 * (inject_Z c / 100) /\
     (shown_risk d == 0 <-> shown_health d == 100 \/ c = 0%Z)).
Proof.
  split.
  - intros t y c np _ _ _ d. subst d.
    destruct (app_run_shows t y c np) as (-> & _ & -> & _).
    split; [reflexivity | apply total_risk_zero].
  - intros b t y c w _ _ _ d. subst d.
    destruct (editapp_run_shows b t y c w) as (-> & _ & -> & _).
    split; [reflexivity | apply total_risk_zero].
Qed.

Lemma risk_value_formula_and_zero_witness :
  temp_ok 25 /\ years_ok App.year_max 1 /\ cost_ok 500 /\
  let d := fst (App.run 25 1 500 (Py.mkSource (fun _ => 1) 0)) in
  shown_risk d == (100 - shown_health d) * 31 * (inject_Z 500 / 100) /\
  (shown_risk d == 0 <-> shown_health d == 100 \/ 500%Z = 0%Z).
Proof.
  assert (Ht : temp_ok 25) by (unfold temp_ok; lia).
  assert (Hy : years_ok App.year_max 1) by (unfold years_ok, App.year_max; lia).
  assert (Hc : cost_ok 500) by (unfold cost_ok; lia).
  split; [exact Ht | split; [exact Hy | split; [exact Hc |]]].
  exact (proj1 risk_value_formula_and_zero 25%Z 1%Z 500%Z _ Ht Hy Hc).
Defined.

(** Within the bounds the health shown is never 100, so the risk shown is 0
    exactly when the cost is 0. *)
Lemma risk_zero_iff_cost_zero (t y c : Z) np :
  (1 <= y)%Z ->
  shown_risk (fst (App.run t y c np)) == 0 <-> c = 0%Z.
Proof.
  intro Hy.
  destruct (app_run_shows t y c np) as (_ & _ & -> & _).
  rewrite total_risk_zero.
  pose proof (current_health_below_100 8 t y ltac:(lia) Hy) as B.
  fold App.base_rate in B. fold App.current_health in B.
  split; [intros [H | H]; [exfalso; lra | exact H] | auto].
Qed.

(** ** The decay curve *)

Section Curve.

Lemma months_enumerated :
  months = [0; 1; 2; 3; 4; 5; 6; 7; 8; 9; 10; 11; 12; 13; 14; 15; 16;
            17; 18; 19; 20; 21; 22; 23; 24]%Z.
Proof. reflexivity. Qed.

Lemma months_nth (m : nat) : (m < 25)%nat -> nth m months 0%Z = Z.of_nat m.
Proof.
  intro H. unfold months, Py.arange.
  change 0%Z with (Z.of_nat 0). rewrite map_nth.
  rewrite seq_nth by (simpl; lia). reflexivity.
Qed.

Lemma health_curve_length (df : Q) : length (health_curve df) = 25%nat.
Proof. unfold health_curve. rewrite length_map. reflexivity. Qed.

Lemma health_curve_nth (df : Q) (m : nat) :
  (m < 25)%nat ->
  nth m (health_curve df) 0 == 100 - inject_Z (Z.of_nat m) * 2 * df.
Proof.
  intro H. unfold health_curve.
  rewrite (nth_indep _ 0 ((fun k => 100 - inject_Z (k * 2) * df) 0%Z))
    by (rewrite length_map; simpl; lia).
  rewrite (map_nth (fun k => 100 - inject_Z (k * 2) * df)).
  rewrite (months_nth m H), inject_Z_mult. ring.
Qed.

End Curve.

(** C7.  For every degradation factor the curve has the 25 months 0..24,
    the value at month [m] is [100 - m * 2 * factor] with no clamping
    (values below 0 and above 100 stay in the curve), and the value at
    month 0 is 100.  Both scripts plot this curve against the months. *)
Theorem decay_curve_points :
  forall df : Q,
    (months = map Z.of_nat (seq 0 25) /\ length (health_curve df) = 25%nat) /\
    (forall m : nat, (m < 25)%nat ->
       nth m (health_curve df) 0 == 100 - inject_Z (Z.of_nat m) * 2 * df) /\
    nth 0 (health_curve df) 0 == 100 /\
    (nth 24 (health_curve (degradation_factor 40)) 0 < 0 /\
     100 < nth 24 (health_curve (-1)) 0) /\
    (forall t y c np,
       shown_curve (fst (App.run t y c np))
       = combine months (health_curve (degradation_factor t))) /\
    (forall b t y c w,
       shown_curve (fst (EditApp.run b t y c w))
       = combine months (health_curve (degradation_factor t))).
Proof.
  intro df.
  split; [split; [reflexivity | apply health_curve_length] |].
  split; [intros m H; apply health_curve_nth; exact H |].
  split; [rewrite (health_curve_nth df 0) by lia; simpl; ring |].
  split; [split; reflexivity |].
  split.
  - intros t y c np. apply (app_run_shows t y c np).
  - intros b t y c w. apply (editapp_run_shows b t y c w).
Qed.

Lemma decay_curve_points_witness :
  (3 < 25)%nat /\
  nth 3 (health_curve 1.2) 0 == 100 - inject_Z (Z.of_nat 3) * 2 * 1.2.
Proof.
  assert (H : (3 < 25)%nat) by lia.
  split; [exact H |].
  exact (proj1 (proj2 (decay_curve_points 1.2)) 3%nat H).
Defined.

(** ** The block grid *)

Section Grid.

Variable time_projection : Z.
Variable df : Q.

Lemma grid_loop_unfolded (iters : list Z) :
  forall acc np,
    grid_loop iters time_projection df acc np
    = (acc ++ map (appended time_projection df np) (seq 0 (length iters)),
       Py.mkSource (Py.feed np) (Py.cursor np + length iters)).
Proof.
  induction iters as [| i rest IH]; intros acc np.
  - simpl. rewrite app_nil_r, Nat.add_0_r. destruct np; reflexivity.
  - simpl grid_loop. unfold Py.draw. rewrite IH. cbn [Py.feed Py.cursor].
    f_equal.
    + rewrite <- app_assoc. f_equal.
      cbn [length seq map app]. f_equal.
      * unfold appended. rewrite Nat.add_0_r. reflexivity.
      * rewrite <- seq_shift, map_map. apply map_ext. intro k.
        unfold appended. cbn [Py.feed Py.cursor].
        rewrite Nat.add_succ_r. reflexivity.
    + f_equal. cbn [length]. lia.
Qed.

Lemma grid_health_unfolded (np : Py.Source Q) :
  grid_health time_projection df np
  = (map (appended time_projection df np) (seq 0 30), Py.mkSource (Py.feed np) (Py.cursor np + 30)).
Proof. unfold grid_health. rewrite grid_loop_unfolded. reflexivity. Qed.

Lemma grid_health_length (np : Py.Source Q) :
  length (fst (grid_health time_projection df np)) = 30%nat.
Proof. rewrite grid_health_unfolded. cbn [fst]. rewrite length_map, length_seq. reflexivity. Qed.

Lemma grid_health_nth (np : Py.Source Q) (i : nat) :
  (i < 30)%nat ->
  nth i (fst (grid_health time_projection df np)) 0 = appended time_projection df np i.
Proof.
  intro H. rewrite grid_health_unfolded. cbn [fst].
  rewrite (nth_indep _ 0 (appended time_projection df np 0)) by (rewrite length_map, length_seq; exact H).
  rewrite map_nth, seq_nth by exact H. reflexivity.
Qed.

Lemma appended_formula (np : Py.Source Q) (i : nat) :
  appended time_projection df np i
  == Qmax 0 (100 - inject_Z time_projection * 8 * df * Py.feed np (Py.cursor np + i)).
Proof.
  unfold appended, block_health. rewrite max_Qmax.
  apply Q.max_compat; [reflexivity |].
  rewrite inject_Z_mult. ring.
Qed.

(** A draw of at least 0.8, a positive factor and at least one year keep
    the appended value under 100. *)
Lemma appended_range (np : Py.Source Q) (i : nat) :
  (1 <= time_projection)%Z -> 0 < df ->
  jitter_ok (Py.feed np (Py.cursor np + i)) ->
  0 <= appended time_projection df np i < 100.
Proof.
  intros Hy Hd [Hj _].
  unfold appended, block_health.
  set (j := Py.feed np (Py.cursor np + i)) in *.
  assert (Hk : 0 < inject_Z (time_projection * 8)) by (unfold Qlt; simpl; lia).
  assert (Hj' : 0 < j) by lra.
  assert (P : 0 < inject_Z (time_projection * 8) * df * j).
  { apply Qmult_lt_0_compat; [apply Qmult_lt_0_compat |]; assumption. }
  destruct (max_spec 0 (100 - inject_Z (time_projection * 8) * df * j))
    as [[H ->] | [H ->]]; lra.
Qed.

End Grid.

Section Reshape.

Lemma rows_of_length (n cols : nat) (l : list Q) :
  length (Py.rows_of n cols l) = n.
Proof.
  revert l. induction n as [| n IH]; intro l; simpl; [| rewrite IH]; reflexivity.
Qed.

Lemma rows_of_widths (n cols : nat) :
  forall l, length l = (n * cols)%nat ->
            Forall (fun row => length row = cols) (Py.rows_of n cols l).
Proof.
  induction n as [| n IH]; intros l H; simpl; constructor.
  - rewrite length_firstn. simpl in H. lia.
  - apply IH. rewrite length_skipn. simpl in H. lia.
Qed.

(** Row-major: element [c] of row [r] is element [cols * r + c] of the
    flat list. *)
Lemma rows_of_nth (n cols : nat) (d : Q) :
  forall l r c, (r < n)%nat -> (c < cols)%nat ->
    nth c (nth r (Py.rows_of n cols l) []) d = nth (cols * r + c) l d.
Proof.
  induction n as [| n IH]; intros l r c Hr Hc; [lia |].
  destruct r as [| r]; simpl Py.rows_of; cbn [nth].
  - rewrite nth_firstn. apply Nat.ltb_lt in Hc. rewrite Hc.
    f_equal. lia.
  - rewrite IH by lia. rewrite nth_skipn. f_equal. lia.
Qed.

Lemma rows_of_Forall (P : Q -> Prop) (n cols : nat) :
  forall l, Forall P l -> Forall (Forall P) (Py.rows_of n cols l).
Proof.
  induction n as [| n IH]; intros l H; simpl; constructor;
    rewrite <- (firstn_skipn cols l) in H; apply Forall_app in H;
    destruct H as [H1 H2]; [exact H1 | apply IH; exact H2].
Qed.

Lemma grid_data_of_30 (flat : list Q) :
  length flat = 30%nat -> grid_data flat = Some (Py.rows_of 6 5 flat).
Proof. intro H. unfold grid_data, Py.reshape. rewrite H. reflexivity. Qed.

End Reshape.

(** C8.  For every number of years, every degradation factor and every
    sequence of draws in [0.8, 1.2], the grid has exactly 30 values, the
    [i]-th being [max(0, 100 - years * 8 * factor * draw_i)], laid out
    row-major in 6 rows of 5; both scripts show it, and [editapp.py] uses
    the rate 8 here as well. *)
Theorem block_grid_layout :
  forall (y : Z) (df : Q) (np : Py.Source Q),
    (forall k, jitter_ok (Py.feed np k)) ->
    let flat := fst (grid_health y df np) in
    let jitter := fun i => Py.feed np (Py.cursor np + i) in
    length flat = 30%nat /\
    (forall i, (i < 30)%nat ->
       nth i flat 0 == Qmax 0 (100 - inject_Z y * 8 * df * jitter i)) /\
    (exists rows,
       grid_data flat = Some rows /\
       length rows = 6%nat /\
       Forall (fun row => length row = 5%nat) rows /\
       forall r c, (r < 6)%nat -> (c < 5)%nat ->
         nth c (nth r rows []) 0 = nth (5 * r + c) flat 0) /\
    (forall t c, df = degradation_factor t ->
       shown_grid (fst (App.run t y c np)) = grid_data flat) /\
    (forall b t c ss rnd, df = degradation_factor t ->
       shown_grid (fst (EditApp.run b t y c (EditApp.mkWorld ss rnd np)))
       = grid_data flat).
Proof.
  intros y df np _ flat jitter. subst flat jitter.
  pose proof (grid_health_length y df np) as L.
  split; [exact L |].
  split.
  { intros i H. rewrite (grid_health_nth y df np i H). apply appended_formula. }
  split.
  { exists (Py.rows_of 6 5 (fst (grid_health y df np))).
    split; [apply grid_data_of_30; exact L |].
    split; [apply rows_of_length |].
    split; [apply rows_of_widths; rewrite L; reflexivity |].
    intros r c Hr Hc. apply rows_of_nth; assumption. }
  split.
  - intros t c ->. apply (app_run_shows t y c np).
  - intros b t c ss rnd ->.
    apply (editapp_run_shows b t y c (EditApp.mkWorld ss rnd np)).
Qed.

Lemma block_grid_layout_witness :
  let np := Py.mkSource (fun k => if Nat.even k then 0.9 else 1.1) 0 in
  (forall k, jitter_ok (Py.feed np k)) /\
  length (fst (grid_health 3 1.2 np)) = 30%nat /\
  nth 7 (fst (grid_health 3 1.2 np)) 0
  == Qmax 0 (100 - inject_Z 3 * 8 * 1.2 * Py.feed np (Py.cursor np + 7)).
Proof.
  intro np.
  assert (J : forall k, jitter_ok (Py.feed np k)).
  { intro k. unfold jitter_ok, np. simpl.
    destruct (Nat.even k); split; discriminate. }
  pose proof (block_grid_layout 3%Z 1.2 np J) as (L & V & _).
  split; [exact J | split; [exact L |]].
  apply V. lia.
Defined.

(** C10.  With at least one year, a temperature on the slider and draws
    in [0.8, 1.2], every value of the grid that either script shows is at
    least 0 and strictly below 100, although the loop only clamps below. *)
Theorem block_grid_below_100 :
  forall (t y c : Z) (np : Py.Source Q),
    temp_ok t -> (1 <= y)%Z ->
    (forall k, jitter_ok (Py.feed np k)) ->
    (exists rows,
       shown_grid (fst (App.run t y c np)) = Some rows /\
       Forall (Forall (fun v => 0 <= v < 100)) rows) /\
    (forall b ss rnd,
       exists rows,
         shown_grid (fst (EditApp.run b t y c (EditApp.mkWorld ss rnd np))) = Some rows /\
         Forall (Forall (fun v => 0 <= v < 100)) rows).
Proof.
  intros t y c np _ Hy J.
  set (flat := fst (grid_health y (degradation_factor t) np)).
  assert (L : length flat = 30%nat) by apply grid_health_length.
  assert (F : Forall (fun v => 0 <= v < 100) flat).
  { unfold flat. rewrite grid_health_unfolded. cbn [fst].
    apply Forall_map, Forall_forall. intros i _.
    apply appended_range; [exact Hy | apply df_pos | apply J]. }
  assert (R : Forall (Forall (fun v => 0 <= v < 100)) (Py.rows_of 6 5 flat))
    by (apply rows_of_Forall; exact F).
  split.
  - exists (Py.rows_of 6 5 flat). split; [| exact R].
    destruct (app_run_shows t y c np) as (_ & _ & _ & _ & _ & ->).
    apply grid_data_of_30. exact L.
  - intros b ss rnd. exists (Py.rows_of 6 5 flat). split; [| exact R].
    destruct (editapp_run_shows b t y c (EditApp.mkWorld ss rnd np))
      as (_ & _ & _ & _ & _ & -> & _).
    apply grid_data_of_30. exact L.
Qed.

Lemma block_grid_below_100_witness :
  let np := Py.mkSource (fun k => if Nat.even k then 0.8 else 1.2) 0 in
  temp_ok 20 /\ (1 <= 1)%Z /\ (forall k, jitter_ok (Py.feed np k)) /\
  exists rows,
    shown_grid (fst (App.run 20 1 500 np)) = Some rows /\
    Forall (Forall (fun v => 0 <= v < 100)) rows.
Proof.
  intro np.
  assert (Ht : temp_ok 20) by (unfold temp_ok; lia).
  assert (Hy : (1 <= 1)%Z) by lia.
  assert (J : forall k, jitter_ok (Py.feed np k)).
  { intro k. unfold jitter_ok, np. simpl.
    destruct (Nat.even k); split; discriminate. }
  split; [exact Ht | split; [exact Hy | split; [exact J |]]].
  exact (proj1 (block_grid_below_100 20%Z 1%Z 500%Z np Ht Hy J)).
Defined.

(** ** The alert flag *)

Section Alerts.

(** The outcomes of the [col2] block. *)
Lemma col2_cases (h : Q) (ss : EditApp.SessionState) (rnd : Py.Source Z) :
  let r := EditApp.col2 h ss rnd in
  match EditApp.status h, EditApp.last_status ss with
  | CRITICAL, Some CRITICAL | WARNING, Some WARNING =>
      r = (EditApp.status h, [], ss, rnd)
  | CRITICAL, _ =>
      r = (CRITICAL, [ToastCritical; AudioBeep],
           EditApp.mkSession (Some CRITICAL), rnd)
  | WARNING, _ =>
      r = (WARNING, [ToastWarning (Py.feed rnd (Py.cursor rnd))],
           EditApp.mkSession (Some WARNING), snd (Py.draw rnd))
  | HEALTHY, _ =>
      r = (HEALTHY, [], EditApp.mkSession (Some HEALTHY), rnd)
  end.
Proof.
  unfold EditApp.col2, EditApp.status, status, EditApp.warning_below,
    EditApp.last_status_differs.
  destruct (Py.ltb h 50); [| destruct (Py.ltb h 60)];
    destruct ss as [[[ | | ] |]]; reflexivity.
Qed.

Lemma fresh_reachable_warning :
  EditApp.reachable (EditApp.mkSession (Some WARNING)).
Proof.
  exact (EditApp.reach_run 55 EditApp.fresh_session
           (Py.mkSource (fun _ => 5%Z) 0) EditApp.reach_fresh).
Qed.

(** The emissions of a session are those read off its statuses. *)
Lemma play_alerts (ins : list EditApp.Inputs) :
  forall w,
    map shown_emissions (EditApp.play ins w)
    = alerts_of (map shown_status (EditApp.play ins w))
                (EditApp.last_status (EditApp.session w)) (EditApp.py_random w).
Proof.
  induction ins as [| i rest IH]; intro w; [reflexivity |].
  cbn [EditApp.play].
  pose proof (col2_cases
                (EditApp.current_health (EditApp.in_temp i) (EditApp.in_years i))
                (EditApp.session w) (EditApp.py_random w)) as C.
  cbv zeta in C.
  unfold EditApp.run.
  destruct (grid_health (EditApp.in_years i)
              (degradation_factor (EditApp.in_temp i)) (EditApp.np_random w))
    as [flat np'].
  destruct (EditApp.status
              (EditApp.current_health (EditApp.in_temp i) (EditApp.in_years i)));
    destruct w as [[[[ | | ] |]] rnd np];
    cbn [EditApp.session EditApp.py_random EditApp.last_status] in *;
    rewrite C; cbn [map shown_emissions shown_status alerts_of];
    rewrite IH; reflexivity.
Qed.

End Alerts.

(** C3, as stated, fails when the new status is HEALTHY: with WARNING on
    record and a health of 92 the status changes and nothing is emitted. *)
Lemma healthy_change_emits_nothing :
  ~ (forall (h : Q) ss rnd, EditApp.reachable ss ->
       let r := EditApp.col2 h ss rnd in
       let s := EditApp.col2_status r in
       (EditApp.last_status ss <> Some s ->
          EditApp.col2_emitted r <> [] /\
          (s = CRITICAL -> In AudioBeep (EditApp.col2_emitted r)) /\
          EditApp.last_status (EditApp.col2_session r) = Some s) /\
       (EditApp.last_status ss = Some s -> EditApp.col2_emitted r = [])).
Proof.
  intro H.
  destruct (H 92 (EditApp.mkSession (Some WARNING)) (Py.mkSource (fun _ => 5%Z) 0)
              fresh_reachable_warning) as [D _].
  destruct D as [E _]; [discriminate | apply E; reflexivity].
Qed.

(** C3, amended.  On each recomputation of [editapp.py], from any
    reachable recorded status: when the new status is CRITICAL or WARNING
    and differs from the recorded one, a toast is emitted (followed by the
    audio cue for CRITICAL, and by nothing else for WARNING) and the new
    status is recorded; when the new status is HEALTHY nothing is emitted and
    HEALTHY is recorded; when the new status equals the recorded one nothing
    is emitted and the record is unchanged. *)
Theorem alert_on_status_change :
  forall (h : Q) ss rnd, EditApp.reachable ss ->
    let r := EditApp.col2 h ss rnd in
    let s := EditApp.col2_status r in
    (EditApp.last_status ss <> Some s ->
       (s = CRITICAL ->
          EditApp.col2_emitted r = [ToastCritical; AudioBeep] /\
          EditApp.last_status (EditApp.col2_session r) = Some CRITICAL) /\
       (s = WARNING ->
          EditApp.col2_emitted r = [ToastWarning (Py.feed rnd (Py.cursor rnd))] /\
          EditApp.last_status (EditApp.col2_session r) = Some WARNING)) /\
    (s = HEALTHY ->
       EditApp.col2_emitted r = [] /\
       EditApp.last_status (EditApp.col2_session r) = Some HEALTHY) /\
    (EditApp.last_status ss = Some s ->
       EditApp.col2_emitted r = [] /\ EditApp.col2_session r = ss).
Proof.
  intros h ss rnd _ r s. subst s r.
  rewrite col2_status_eq.
  pose proof (col2_cases h ss rnd) as C. cbv zeta in C.
  destruct (EditApp.status h); destruct ss as [[[ | | ] |]];
    cbn [EditApp.last_status] in *; rewrite C;
    unfold EditApp.col2_emitted, EditApp.col2_session; cbn [fst snd EditApp.last_status];
    repeat split; intros; try reflexivity; try discriminate; try congruence.
Qed.

Lemma alert_on_status_change_witness :
  let ss := EditApp.mkSession (Some WARNING) in
  let rnd := Py.mkSource (fun _ => 5%Z) 0 in
  EditApp.reachable ss /\
  EditApp.col2_emitted (EditApp.col2 46 ss rnd) = [ToastCritical; AudioBeep] /\
  EditApp.last_status (EditApp.col2_session (EditApp.col2 46 ss rnd)) = Some CRITICAL.
Proof.
  intros ss rnd.
  split; [exact fresh_reachable_warning |].
  destruct (alert_on_status_change 46 ss rnd fresh_reachable_warning) as [D _].
  apply D; [discriminate | reflexivity].
Defined.

(** C4.  From a new session, runs whose statuses are HEALTHY, WARNING,
    WARNING, CRITICAL, WARNING emit at runs 1, 3 and 4 (a warning toast,
    the critical toast with the audio cue, a warning toast) and nothing at
    runs 0 and 2; and the first run of a session emits exactly when its
    status is WARNING or CRITICAL. *)
Theorem alert_sequence :
  (forall ins w,
     EditApp.session w = EditApp.fresh_session ->
     map shown_status (EditApp.play ins w)
     = [HEALTHY; WARNING; WARNING; CRITICAL; WARNING] ->
     let rnd := EditApp.py_random w in
     map shown_emissions (EditApp.play ins w)
     = [ [];
         [ToastWarning (Py.feed rnd (Py.cursor rnd))];
         [];
         [ToastCritical; AudioBeep];
         [ToastWarning (Py.feed rnd (S (Py.cursor rnd)))] ]) /\
  (forall b t y c w,
     EditApp.session w = EditApp.fresh_session ->
     let d := fst (EditApp.run b t y c w) in
     shown_emissions d <> [] <->
     shown_status d = WARNING \/ shown_status d = CRITICAL).
Proof.
  split.
  - intros ins w Hw Hs rnd. subst rnd.
    rewrite play_alerts, Hs, Hw. reflexivity.
  - intros b t y c w Hw d. subst d.
    destruct (editapp_run_shows b t y c w) as (_ & -> & _ & -> & _).
    rewrite Hw.
    pose proof (col2_cases (EditApp.current_health t y) EditApp.fresh_session
                  (EditApp.py_random w)) as C.
    cbv zeta in C.
    destruct (EditApp.status (EditApp.current_health t y));
      cbn [EditApp.last_status EditApp.fresh_session] in C; rewrite C;
      unfold EditApp.col2_emitted; cbn [fst snd];
      split; intro H; try discriminate; auto;
      try (exfalso; apply H; reflexivity);
      destruct H; discriminate.
Qed.

Lemma alert_sequence_witness :
  let w := EditApp.mkWorld EditApp.fresh_session
             (Py.mkSource (fun k => if Nat.even k then 4%Z else 7%Z) 0)
             (Py.mkSource (fun _ => 1) 0) in
  let ins := [ EditApp.mkInputs 0 25 1 500; EditApp.mkInputs 0 25 7 500;
               EditApp.mkInputs 3 25 7 500; EditApp.mkInputs 3 25 9 500;
               EditApp.mkInputs 3 25 7 500 ] in
  map shown_status (EditApp.play ins w)
  = [HEALTHY; WARNING; WARNING; CRITICAL; WARNING] /\
  map shown_emissions (EditApp.play ins w)
  = [ []; [ToastWarning 4]; []; [ToastCritical; AudioBeep]; [ToastWarning 7] ].
Proof.
  intros w ins.
  assert (Hs : map shown_status (EditApp.play ins w)
               = [HEALTHY; WARNING; WARNING; CRITICAL; WARNING])
    by (vm_compute; reflexivity).
  split; [exact Hs |].
  exact (proj1 alert_sequence ins w eq_refl Hs).
Defined.

(** C9.  In [editapp.py] the selected block has no effect: two runs on the
    same sliders, session flag and random generators show the same values
    and leave the same state whichever of the 30 blocks is selected, and
    so do two sessions that differ only in the selections. *)
Theorem selected_block_unobservable :
  (forall b1 b2 t y c w,
     In (EditApp.selectbox EditApp.available_blocks b1) EditApp.available_blocks ->
     In (EditApp.selectbox EditApp.available_blocks b2) EditApp.available_blocks ->
     EditApp.run b1 t y c w = EditApp.run b2 t y c w) /\
  (forall ins1 ins2 w,
     map EditApp.sliders ins1 = map EditApp.sliders ins2 ->
     EditApp.play ins1 w = EditApp.play ins2 w).
Proof.
  split.
  - intros b1 b2 t y c w _ _. reflexivity.
  - induction ins1 as [| i1 r1 IH]; intros [| i2 r2] w H; try discriminate.
    + reflexivity.
    + cbn [map] in H. injection H as Ht Hy Hc Hr.
      cbn [EditApp.play]. rewrite Ht, Hy, Hc.
      change (EditApp.run (EditApp.in_block i1)) with (EditApp.run (EditApp.in_block i2)).
      destruct (EditApp.run (EditApp.in_block i2) (EditApp.in_temp i2)
                  (EditApp.in_years i2) (EditApp.in_cost i2) w) as [d w'].
      f_equal. apply IH. exact Hr.
Qed.

Lemma selected_block_unobservable_witness :
  let w := EditApp.mkWorld EditApp.fresh_session
             (Py.mkSource (fun _ => 5%Z) 0) (Py.mkSource (fun _ => 1) 0) in
  EditApp.selectbox EditApp.available_blocks 0 = "Block_1"%string /\
  EditApp.selectbox EditApp.available_blocks 29 = "Block_30"%string /\
  EditApp.run 0 30 7 500 w = EditApp.run 29 30 7 500 w /\
  EditApp.play [EditApp.mkInputs 0 30 7 500; EditApp.mkInputs 4 35 2 500] w
  = EditApp.play [EditApp.mkInputs 29 30 7 500; EditApp.mkInputs 11 35 2 500] w.
Proof.
  intro w.
  split; [reflexivity | split; [reflexivity | split]].
  - apply (proj1 selected_block_unobservable 0%nat 29%nat).
    + vm_compute. left. reflexivity.
    + vm_compute. do 29 right. left. reflexivity.
  - apply (proj2 selected_block_unobservable). reflexivity.
Defined.

(** ** Concrete cases *)

(** 25 degrees, 1 year, rate 8: factor 1, health 92, HEALTHY, risk
    [8 * 31 * (cost / 100)]. *)
Example app_25_degrees_1_year :
  let d := fst (App.run 25 1 500 (Py.mkSource (fun _ => 1) 0)) in
  degradation_factor 25 == 1 /\ shown_health d == 92 /\
  shown_status d = HEALTHY /\ shown_risk d == 8 * 31 * (500 / 100).
Proof. repeat split; reflexivity. Qed.

(** The same sliders in [editapp.py], rate 6: health 94; a health of 62
    is HEALTHY there and WARNING in [app.py]. *)
Example editapp_25_degrees_1_year :
  EditApp.current_health 25 1 == 94 /\
  EditApp.status 62 = HEALTHY /\ App.status 62 = WARNING.
Proof. repeat split; reflexivity. Qed.

(** * Further properties of the scripts *)

(** ** The recorded status across runs *)

Section Recorded.

Lemma col2_records (h : Q) ss rnd :
  EditApp.last_status (EditApp.col2_session (EditApp.col2 h ss rnd))
  = Some (EditApp.status h).
Proof.
  pose proof (col2_cases h ss rnd) as C. cbv zeta in C.
  destruct (EditApp.status h); destruct ss as [[[ | | ] |]];
    cbn [EditApp.last_status] in C; rewrite C; reflexivity.
Qed.

Lemma col2_emits_iff (h : Q) ss rnd :
  EditApp.col2_emitted (EditApp.col2 h ss rnd) <> [] <->
  EditApp.last_status ss <> Some (EditApp.status h) /\ EditApp.status h <> HEALTHY.
Proof.
  pose proof (col2_cases h ss rnd) as C. cbv zeta in C.
  destruct (EditApp.status h); destruct ss as [[[ | | ] |]];
    cbn [EditApp.last_status] in *; rewrite C;
    unfold EditApp.col2_emitted; cbn [fst snd];
    split; try (intros [A B]); try intro A; try congruence;
    try (split; congruence).
Qed.

End Recorded.

(** X1.  After every run of [editapp.py], whatever was on record before, the
    recorded status is the status that run showed. *)
Theorem recorded_status_is_shown_status :
  forall b t y c w,
    EditApp.last_status (EditApp.session (snd (EditApp.run b t y c w)))
    = Some (shown_status (fst (EditApp.run b t y c w))).
Proof.
  intros b t y c w.
  destruct (editapp_run_shows b t y c w) as (_ & -> & _ & _ & _ & _ & ->).
  apply col2_records.
Qed.

(** X2.  A run of [editapp.py] that follows another run emits something exactly
    when its status differs from the status of the run before and is not
    HEALTHY. *)
Theorem emits_iff_status_changed :
  forall b1 t1 y1 c1 b2 t2 y2 c2 w,
    let first := EditApp.run b1 t1 y1 c1 w in
    let second := EditApp.run b2 t2 y2 c2 (snd first) in
    shown_emissions (fst second) <> [] <->
    shown_status (fst second) <> shown_status (fst first) /\
    shown_status (fst second) <> HEALTHY.
Proof.
  intros b1 t1 y1 c1 b2 t2 y2 c2 w first second. subst second first.
  destruct (editapp_run_shows b2 t2 y2 c2 (snd (EditApp.run b1 t1 y1 c1 w)))
    as (_ & -> & _ & -> & _).
  destruct (editapp_run_shows b1 t1 y1 c1 w) as (_ & -> & _ & _ & _ & _ & ->).
  rewrite col2_emits_iff, col2_records.
  split; intros [A B]; split; congruence.
Qed.

(** X3.  Running [editapp.py] again on the same sliders, with any block
    selected, emits nothing: an alert is not repeated by a re-run. *)
Theorem rerun_is_silent :
  forall b1 b2 t y c w,
    shown_emissions (fst (EditApp.run b2 t y c (snd (EditApp.run b1 t y c w)))) = [].
Proof.
  intros b1 b2 t y c w.
  destruct (editapp_run_shows b2 t y c (snd (EditApp.run b1 t y c w)))
    as (_ & _ & _ & -> & _).
  destruct (editapp_run_shows b1 t y c w) as (_ & _ & _ & _ & _ & _ & ->).
  match goal with |- ?e = [] => destruct e as [| x l] eqn:Em end;
    [reflexivity | exfalso].
  assert (N : EditApp.col2_emitted
                (EditApp.col2 (EditApp.current_health t y)
                   (EditApp.col2_session
                      (EditApp.col2 (EditApp.current_health t y)
                         (EditApp.session w) (EditApp.py_random w)))
                   (EditApp.py_random (snd (EditApp.run b1 t y c w)))) <> [])
    by (rewrite Em; discriminate).
  apply col2_emits_iff in N. destruct N as [N _].
  apply N, col2_records.
Qed.

(** X4.  What a run of [editapp.py] emits is one of: nothing, the critical
    toast followed by the audio cue, or one warning toast carrying the next
    value of [random]; the audio cue comes only with status CRITICAL, a
    warning toast only with status WARNING, and nothing with HEALTHY. *)
Theorem emissions_match_status :
  forall b t y c w,
    let d := fst (EditApp.run b t y c w) in
    let rnd := EditApp.py_random w in
    (shown_emissions d = [] \/
     (shown_emissions d = [ToastCritical; AudioBeep] /\ shown_status d = CRITICAL) \/
     (shown_emissions d = [ToastWarning (Py.feed rnd (Py.cursor rnd))] /\
      shown_status d = WARNING)) /\
    (shown_status d = HEALTHY -> shown_emissions d = []).
Proof.
  intros b t y c w d rnd. subst d rnd.
  destruct (editapp_run_shows b t y c w) as (_ & -> & _ & -> & _).
  pose proof (col2_cases (EditApp.current_health t y) (EditApp.session w)
                (EditApp.py_random w)) as C.
  cbv zeta in C.
  destruct (EditApp.status (EditApp.current_health t y));
    destruct (EditApp.session w) as [[[ | | ] |]];
    cbn [EditApp.last_status] in C; rewrite C;
    unfold EditApp.col2_emitted; cbn [fst snd];
    split; try discriminate; auto.
Qed.

(** ** Use of the random generators *)

Section Generators.

Lemma editapp_run_generators b t y c w :
  let r := EditApp.run b t y c w in
  let a := EditApp.col2 (EditApp.current_health t y) (EditApp.session w)
             (EditApp.py_random w) in
  EditApp.py_random (snd r) = snd a /\
  EditApp.np_random (snd r)
  = Py.mkSource (Py.feed (EditApp.np_random w)) (Py.cursor (EditApp.np_random w) + 30).
Proof.
  cbv zeta. unfold EditApp.run.
  destruct (EditApp.col2 _ _ _) as [[[s e] ss'] r'].
  rewrite grid_health_unfolded. cbn. split; reflexivity.
Qed.

Lemma play_grid (ins : list EditApp.Inputs) :
  forall w k i,
    nth_error ins k = Some i ->
    nth_error (map shown_grid (EditApp.play ins w)) k
    = Some (grid_data
              (fst (grid_health (EditApp.in_years i)
                      (degradation_factor (EditApp.in_temp i))
                      (Py.mkSource (Py.feed (EditApp.np_random w))
                         (Py.cursor (EditApp.np_random w) + 30 * k))))).
Proof.
  induction ins as [| i0 rest IH]; intros w k i H; [destruct k; discriminate |].
  cbn [EditApp.play].
  pose proof (editapp_run_generators (EditApp.in_block i0) (EditApp.in_temp i0)
                (EditApp.in_years i0) (EditApp.in_cost i0) w) as [_ G].
  pose proof (editapp_run_shows (EditApp.in_block i0) (EditApp.in_temp i0)
                (EditApp.in_years i0) (EditApp.in_cost i0) w) as (_ & _ & _ & _ & _ & S & _).
  destruct (EditApp.run (EditApp.in_block i0) (EditApp.in_temp i0)
              (EditApp.in_years i0) (EditApp.in_cost i0) w) as [d w'].
  cbn [fst snd] in *.
  destruct k as [| k]; cbn [nth_error map] in *.
  - injection H as <-. rewrite S, Nat.mul_0_r, Nat.add_0_r.
    destruct (EditApp.np_random w); reflexivity.
  - rewrite (IH w' k i H), G. cbn [Py.feed Py.cursor].
    do 5 f_equal. lia.
Qed.

End Generators.

(** X5.  One run takes exactly 30 values from [np.random] in either script.
    A run of [editapp.py] takes one value from [random] when it emits a
    warning toast and none otherwise. *)
Theorem draws_per_run :
  (forall t y c np,
     snd (App.run t y c np) = Py.mkSource (Py.feed np) (Py.cursor np + 30)) /\
  (forall b t y c w,
     let r := EditApp.run b t y c w in
     EditApp.np_random (snd r)
     = Py.mkSource (Py.feed (EditApp.np_random w))
         (Py.cursor (EditApp.np_random w) + 30) /\
     EditApp.py_random (snd r)
     = match shown_emissions (fst r) with
       | [ToastWarning _] => snd (Py.draw (EditApp.py_random w))
       | _ => EditApp.py_random w
       end).
Proof.
  split.
  - intros t y c np. unfold App.run. rewrite grid_health_unfolded. reflexivity.
  - intros b t y c w r. subst r.
    destruct (editapp_run_generators b t y c w) as [P N].
    split; [exact N |].
    rewrite P.
    destruct (editapp_run_shows b t y c w) as (_ & _ & _ & -> & _).
    pose proof (col2_cases (EditApp.current_health t y) (EditApp.session w)
                  (EditApp.py_random w)) as C.
    cbv zeta in C.
    destruct (EditApp.status (EditApp.current_health t y));
      destruct (EditApp.session w) as [[[ | | ] |]];
      cbn [EditApp.last_status] in C; rewrite C; reflexivity.
Qed.

(** X6.  In a session of [editapp.py] the grid of run number [k] is computed
    from the draws [30 * k .. 30 * k + 29] after the starting position: no
    draw is used by two runs. *)
Theorem session_grids_use_fresh_draws :
  forall ins w k i,
    nth_error ins k = Some i ->
    nth_error (map shown_grid (EditApp.play ins w)) k
    = Some (grid_data
              (fst (grid_health (EditApp.in_years i)
                      (degradation_factor (EditApp.in_temp i))
                      (Py.mkSource (Py.feed (EditApp.np_random w))
                         (Py.cursor (EditApp.np_random w) + 30 * k))))).
Proof. intros ins w k i H. apply play_grid. exact H. Qed.

Lemma session_grids_use_fresh_draws_witness :
  let w := EditApp.mkWorld EditApp.fresh_session (Py.mkSource (fun _ => 5%Z) 0)
             (Py.mkSource (fun k => if Nat.ltb k 30 then 0.8 else 1.2) 0) in
  let i0 := EditApp.mkInputs 0 25 1 500 in
  let i1 := EditApp.mkInputs 0 30 2 500 in
  nth_error [i0; i1] 1 = Some i1 /\
  nth_error (map shown_grid (EditApp.play [i0; i1] w)) 1
  = Some (grid_data
            (fst (grid_health 2 (degradation_factor 30)
                    (Py.mkSource (fun k => if Nat.ltb k 30 then 0.8 else 1.2) (0 + 30 * 1))))).
Proof.
  intros w i0 i1.
  assert (H : nth_error [i0; i1] 1 = Some i1) by reflexivity.
  split; [exact H |].
  exact (session_grids_use_fresh_draws [i0; i1] w 1%nat i1 H).
Defined.

(** ** Monotonicity and bounds of the health model *)

Section Monotone.

Lemma pymax_mono (a b b' : Q) : b <= b' -> Py.max a b <= Py.max a b'.
Proof.
  intro H.
  destruct (max_spec a b) as [[H1 ->] | [H1 ->]];
    destruct (max_spec a b') as [[H2 ->] | [H2 ->]]; lra.
Qed.

Lemma pymin_mono (a b b' : Q) : b <= b' -> Py.min a b <= Py.min a b'.
Proof.
  intro H.
  destruct (min_spec a b) as [[H1 ->] | [H1 ->]];
    destruct (min_spec a b') as [[H2 ->] | [H2 ->]]; lra.
Qed.

Lemma df_monotone (t1 t2 : Z) :
  (t1 <= t2)%Z -> degradation_factor t1 <= degradation_factor t2.
Proof.
  intro H. destruct (Z.eq_dec t1 t2) as [-> | Hne]; [apply Qle_refl |].
  apply Qlt_le_weak, df_increasing. lia.
Qed.

Lemma inject_Z_nonneg (z : Z) : (0 <= z)%Z -> 0 <= inject_Z z.
Proof. intro H. unfold Qle. simpl. lia. Qed.

Lemma inject_Z_monotone (a b : Z) : (a <= b)%Z -> inject_Z a <= inject_Z b.
Proof. intro H. unfold Qle. simpl. lia. Qed.

(** More years or more heat never give more health, for a rate [k >= 0]. *)
Lemma current_health_antitone (k t1 t2 y1 y2 : Z) :
  (0 <= k)%Z -> (t1 <= t2)%Z -> (0 <= y1 <= y2)%Z ->
  current_health k t2 y2 <= current_health k t1 y1.
Proof.
  intros Hk Ht [Hy1 Hy2]. unfold current_health, raw_health.
  apply pymax_mono, pymin_mono.
  pose proof (df_pos t1) as P1. pose proof (df_monotone t1 t2 Ht) as D.
  assert (A1 : 0 <= inject_Z (y1 * k)) by (apply inject_Z_nonneg; nia).
  assert (A2 : inject_Z (y1 * k) <= inject_Z (y2 * k))
    by (apply inject_Z_monotone; nia).
  set (a1 := inject_Z (y1 * k)) in *. set (a2 := inject_Z (y2 * k)) in *.
  set (d1 := degradation_factor t1) in *. set (d2 := degradation_factor t2) in *.
  assert (M : a1 * d1 <= a2 * d2).
  { apply Qmult_le_compat_nonneg; split; try assumption; lra. }
  lra.
Qed.

(** A lower health under a bound of the WARNING band that is no lower
    gives a status that is at least as severe. *)
Lemma severity_antitone (w1 w2 h1 h2 : Q) :
  w1 <= w2 -> h2 <= h1 ->
  (severity (status w1 h1) <= severity (status w2 h2))%nat.
Proof.
  intros Hw Hh. unfold status.
  destruct (Py.ltb h1 50) eqn:E1; [apply ltb_lt in E1 | apply ltb_ge in E1];
    [| destruct (Py.ltb h1 w1) eqn:E2; [apply ltb_lt in E2 | apply ltb_ge in E2]];
    (destruct (Py.ltb h2 50) eqn:E3; [apply ltb_lt in E3 | apply ltb_ge in E3];
     [| destruct (Py.ltb h2 w2) eqn:E4; [apply ltb_lt in E4 | apply ltb_ge in E4]]);
    simpl; try lia; exfalso; lra.
Qed.


End Monotone.

Section Gauge.

Lemma app_run_gauge t y c np :
  shown_gauge (fst (App.run t y c np)) = 100 - App.current_health t y.
Proof.
  unfold App.run. destruct (grid_health y (degradation_factor t) np). reflexivity.
Qed.

Lemma editapp_run_gauge b t y c w :
  shown_gauge (fst (EditApp.run b t y c w)) = 100 - EditApp.current_health t y.
Proof.
  unfold EditApp.run.
  destruct (EditApp.col2 _ _ _) as [[[s e] ss'] r'].
  destruct (grid_health y (degradation_factor t) (EditApp.np_random w)).
  reflexivity.
Qed.

Lemma current_health_range (k t y : Z) : 0 <= current_health k t y <= 100.
Proof. exact (proj1 (current_health_clamped k t y)). Qed.

Lemma health_rate_order (t y : Z) :
  (0 <= y)%Z -> current_health 8 t y <= current_health 6 t y.
Proof.
  intro Hy. unfold current_health, raw_health.
  apply pymax_mono, pymin_mono.
  pose proof (df_pos t) as P.
  assert (A : inject_Z (y * 6) <= inject_Z (y * 8)) by (apply inject_Z_monotone; lia).
  assert (M : inject_Z (y * 6) * degradation_factor t
              <= inject_Z (y * 8) * degradation_factor t)
    by (apply Qmult_le_compat_r; [exact A | lra]).
  lra.
Qed.

End Gauge.

(** X7.  Raising the temperature or the number of years never raises the health
    shown and never makes the status shown less severe, in either script. *)
Theorem health_never_rises :
  forall t1 t2 y1 y2 : Z,
    (t1 <= t2)%Z -> (0 <= y1 <= y2)%Z ->
    (forall c1 c2 np1 np2,
       let lo := fst (App.run t1 y1 c1 np1) in
       let hi := fst (App.run t2 y2 c2 np2) in
       shown_health hi <= shown_health lo /\
       (severity (shown_status lo) <= severity (shown_status hi))%nat) /\
    (forall b1 b2 c1 c2 w1 w2,
       let lo := fst (EditApp.run b1 t1 y1 c1 w1) in
       let hi := fst (EditApp.run b2 t2 y2 c2 w2) in
       shown_health hi <= shown_health lo /\
       (severity (shown_status lo) <= severity (shown_status hi))%nat).
Proof.
  intros t1 t2 y1 y2 Ht Hy. split.
  - intros c1 c2 np1 np2 lo hi. subst lo hi.
    destruct (app_run_shows t1 y1 c1 np1) as (-> & -> & _).
    destruct (app_run_shows t2 y2 c2 np2) as (-> & -> & _).
    assert (H : App.current_health t2 y2 <= App.current_health t1 y1)
      by (apply current_health_antitone; [unfold App.base_rate; lia | exact Ht | exact Hy]).
    split; [exact H |].
    apply severity_antitone; [apply Qle_refl | exact H].
  - intros b1 b2 c1 c2 w1 w2 lo hi. subst lo hi.
    destruct (editapp_run_shows b1 t1 y1 c1 w1) as (-> & -> & _).
    destruct (editapp_run_shows b2 t2 y2 c2 w2) as (-> & -> & _).
    assert (H : EditApp.current_health t2 y2 <= EditApp.current_health t1 y1)
      by (apply current_health_antitone; [unfold EditApp.base_rate; lia | exact Ht | exact Hy]).
    split; [exact H |].
    apply severity_antitone; [apply Qle_refl | exact H].
Qed.

Lemma health_never_rises_witness :
  (25 <= 33)%Z /\ (0 <= 2 <= 5)%Z /\
  let np := Py.mkSource (fun _ => 1) 0 in
  shown_health (fst (App.run 33 5 500 np)) <= shown_health (fst (App.run 25 2 500 np)) /\
  (severity (shown_status (fst (App.run 25 2 500 np)))
   <= severity (shown_status (fst (App.run 33 5 500 np))))%nat.
Proof.
  assert (Ht : (25 <= 33)%Z) by lia.
  assert (Hy : (0 <= 2 <= 5)%Z) by lia.
  split; [exact Ht | split; [exact Hy |]].
  intro np.
  exact (proj1 (health_never_rises 25 33 2 5 Ht Hy) 500%Z 500%Z np np).
Defined.



(** X9.  On the same sliders [editapp.py] (rate 6, WARNING below 60) never shows
    less health than [app.py] (rate 8, WARNING below 75) and never a more
    severe status. *)
Theorem editapp_no_worse_than_app :
  forall t y : Z, (0 <= y)%Z ->
    forall c1 c2 np b w,
      let a := fst (App.run t y c1 np) in
      let e := fst (EditApp.run b t y c2 w) in
      shown_health a <= shown_health e /\
      (severity (shown_status e) <= severity (shown_status a))%nat.
Proof.
  intros t y Hy c1 c2 np b w a e. subst a e.
  destruct (app_run_shows t y c1 np) as (-> & -> & _).
  destruct (editapp_run_shows b t y c2 w) as (-> & -> & _).
  pose proof (health_rate_order t y Hy) as H.
  split; [exact H |].
  apply severity_antitone; [| exact H].
  unfold EditApp.warning_below, App.warning_below. lra.
Qed.

Lemma editapp_no_worse_than_app_witness :
  (0 <= 8)%Z /\
  let a := fst (App.run 25 8 500 (Py.mkSource (fun _ => 1) 0)) in
  let e := fst (EditApp.run 0 25 8 500
                  (EditApp.mkWorld EditApp.fresh_session
                     (Py.mkSource (fun _ => 5%Z) 0) (Py.mkSource (fun _ => 1) 0))) in
  (shown_status a = CRITICAL /\ shown_status e = WARNING) /\
  shown_health a <= shown_health e /\
  (severity (shown_status e) <= severity (shown_status a))%nat.
Proof.
  assert (Hy : (0 <= 8)%Z) by lia.
  split; [exact Hy |].
  intros a e. split; [split; reflexivity |].
  exact (editapp_no_worse_than_app 25 8 Hy 500%Z 500%Z _ 0%nat _).
Defined.

(** X10.  With at least one year the health shown is strictly below 100 and the
    gauge value strictly above 0, so the upper clamp never acts, and the risk
    shown is 0 exactly when the cost is 0; in either script. *)
Theorem full_health_never_shown :
  forall t y c : Z, (1 <= y)%Z ->
    (forall np,
       let d := fst (App.run t y c np) in
       shown_health d < 100 /\ 0 < shown_gauge d /\
       (shown_risk d == 0 <-> c = 0%Z)) /\
    (forall b w,
       let d := fst (EditApp.run b t y c w) in
       shown_health d < 100 /\ 0 < shown_gauge d /\
       (shown_risk d == 0 <-> c = 0%Z)).
Proof.
  intros t y c Hy.
  assert (G : forall k, (0 < k)%Z ->
                current_health k t y < 100 /\ 0 < 100 - current_health k t y /\
                (total_risk (current_health k t y) c == 0 <-> c = 0%Z)).
  { intros k Hk.
    pose proof (current_health_below_100 k t y Hk Hy) as B.
    split; [exact B | split; [lra |]].
    rewrite total_risk_zero.
    split; [intros [H | H]; [exfalso; lra | exact H] | auto]. }
  split.
  - intros np d. subst d. rewrite app_run_gauge.
    destruct (app_run_shows t y c np) as (-> & _ & -> & _).
    apply (G 8%Z). lia.
  - intros b w d. subst d. rewrite editapp_run_gauge.
    destruct (editapp_run_shows b t y c w) as (-> & _ & -> & _).
    apply (G 6%Z). lia.
Qed.

Lemma full_health_never_shown_witness :
  (1 <= 1)%Z /\
  let d := fst (App.run 20 1 0 (Py.mkSource (fun _ => 1) 0)) in
  shown_health d < 100 /\ 0 < shown_gauge d /\ (shown_risk d == 0 <-> 0%Z = 0%Z).
Proof.
  assert (Hy : (1 <= 1)%Z) by lia.
  split; [exact Hy |].
  exact (proj1 (full_health_never_shown 20 1 0 Hy) (Py.mkSource (fun _ => 1) 0)).
Defined.

(** ** Gauge, colours and labels *)

Section Colours.

Lemma gauge_of_health (w h : Q) :
  0 <= h <= 100 -> 50 <= w ->
  0 <= 100 - h <= 100 /\
  (Show.in_step (100 - h) (0, 50, green) <-> status w h <> CRITICAL) /\
  (exists st, In st Show.gauge_steps /\ Show.in_step (100 - h) st).
Proof.
  intros [H0 H1] Hw.
  destruct (status_bands w h Hw) as (Bc & _ & _).
  split; [split; lra | split].
  - unfold Show.in_step. cbn [fst snd]. split.
    + intros [_ G] E. apply Bc in E. lra.
    + intro N. split; [lra |].
      destruct (Qlt_le_dec h 50) as [L | L]; [| lra].
      exfalso. apply N, Bc, L.
  - unfold Show.gauge_steps, Show.in_step.
    destruct (Qlt_le_dec (100 - h) 50) as [A | A];
      [exists (0, 50, green) | destruct (Qlt_le_dec (100 - h) 80) as [B | B];
                               [exists (50, 80, orange) | exists (80, 100, red)]];
      cbn [fst snd In]; split; auto; lra.
Qed.

Lemma line_red_iff (w h : Q) :
  50 <= w ->
  (Show.line_color h = red <-> status w h = CRITICAL) /\
  (Show.line_color h = green <-> status w h <> CRITICAL) /\
  (Show.app_status_color (status w h) = red <-> Show.line_color h = red).
Proof.
  intro Hw. unfold Show.line_color, status.
  destruct (Py.ltb h 50); [| destruct (Py.ltb h w)]; cbn;
    repeat split; intros; try congruence; try discriminate.
Qed.

End Colours.

(** X11.  In either script the gauge value is 100 minus the health shown and
    stays on the gauge axis [0, 100]; it lies in some colour step, and in
    the green step [0, 50] exactly when the status shown is not CRITICAL. *)
Theorem gauge_follows_health :
  (forall t y c np,
     let d := fst (App.run t y c np) in
     shown_gauge d + shown_health d == 100 /\
     fst Show.gauge_axis <= shown_gauge d <= snd Show.gauge_axis /\
     (Show.in_step (shown_gauge d) (0, 50, green) <-> shown_status d <> CRITICAL) /\
     (exists st, In st Show.gauge_steps /\ Show.in_step (shown_gauge d) st)) /\
  (forall b t y c w,
     let d := fst (EditApp.run b t y c w) in
     shown_gauge d + shown_health d == 100 /\
     fst Show.gauge_axis <= shown_gauge d <= snd Show.gauge_axis /\
     (Show.in_step (shown_gauge d) (0, 50, green) <-> shown_status d <> CRITICAL) /\
     (exists st, In st Show.gauge_steps /\ Show.in_step (shown_gauge d) st)).
Proof.
  split.
  - intros t y c np d. subst d. rewrite app_run_gauge.
    destruct (app_run_shows t y c np) as (-> & -> & _).
    split; [ring |].
    apply gauge_of_health; [apply current_health_range |].
    unfold App.warning_below. lra.
  - intros b t y c w d. subst d. rewrite editapp_run_gauge.
    destruct (editapp_run_shows b t y c w) as (-> & -> & _).
    split; [ring |].
    apply gauge_of_health; [apply current_health_range |].
    unfold EditApp.warning_below. lra.
Qed.

(** X12.  In either script the line of the decay chart is red exactly when the
    status shown is CRITICAL and green otherwise; in [app.py] the status
    label is red exactly when the line is, so a WARNING status has an orange
    label over a green line. *)
Theorem line_colour_follows_status :
  (forall t y c np,
     let d := fst (App.run t y c np) in
     (Show.line_color (shown_health d) = red <-> shown_status d = CRITICAL) /\
     (Show.line_color (shown_health d) = green <-> shown_status d <> CRITICAL) /\
     (Show.app_status_color (shown_status d) = red
      <-> Show.line_color (shown_health d) = red)) /\
  (forall b t y c w,
     let d := fst (EditApp.run b t y c w) in
     (Show.line_color (shown_health d) = red <-> shown_status d = CRITICAL) /\
     (Show.line_color (shown_health d) = green <-> shown_status d <> CRITICAL) /\
     (snd (Show.editapp_icon_color (shown_health d)) = red
      <-> Show.line_color (shown_health d) = red)).
Proof.
  split.
  - intros t y c np d. subst d.
    destruct (app_run_shows t y c np) as (-> & -> & _).
    apply line_red_iff. unfold App.warning_below. lra.
  - intros b t y c w d. subst d.
    destruct (editapp_run_shows b t y c w) as (-> & -> & _).
    destruct (line_red_iff EditApp.warning_below (EditApp.current_health t y))
      as (A & B & _); [unfold EditApp.warning_below; lra |].
    split; [exact A | split; [exact B |]].
    unfold Show.editapp_icon_color, Show.line_color.
    destruct (Py.ltb (EditApp.current_health t y) 50);
      [| destruct (Py.ltb (EditApp.current_health t y) 60)];
      cbn; split; intros; congruence.
Qed.

(** X13.  The heat map of either script gets 5 column labels and 6 row labels,
    and the grid every run shows has exactly that shape. *)
Theorem heatmap_labels_fit_grid :
  (Show.heat_x = ["Col 1"; "Col 2"; "Col 3"; "Col 4"; "Col 5"]%string /\
   Show.heat_y = ["Row 1"; "Row 2"; "Row 3"; "Row 4"; "Row 5"; "Row 6"]%string) /\
  (forall t y c np,
     exists rows,
       shown_grid (fst (App.run t y c np)) = Some rows /\
       length rows = length Show.heat_y /\
       Forall (fun row => length row = length Show.heat_x) rows) /\
  (forall b t y c w,
     exists rows,
       shown_grid (fst (EditApp.run b t y c w)) = Some rows /\
       length rows = length Show.heat_y /\
       Forall (fun row => length row = length Show.heat_x) rows).
Proof.
  assert (G : forall y df np,
            exists rows,
              grid_data (fst (grid_health y df np)) = Some rows /\
              length rows = length Show.heat_y /\
              Forall (fun row => length row = length Show.heat_x) rows).
  { intros y df np. exists (Py.rows_of 6 5 (fst (grid_health y df np))).
    pose proof (grid_health_length y df np) as L.
    split; [apply grid_data_of_30; exact L |].
    split; [apply rows_of_length |].
    apply rows_of_widths. rewrite L. reflexivity. }
  split; [split; reflexivity | split].
  - intros t y c np.
    destruct (app_run_shows t y c np) as (_ & _ & _ & _ & _ & ->). apply G.
  - intros b t y c w.
    destruct (editapp_run_shows b t y c w) as (_ & _ & _ & _ & _ & -> & _). apply G.
Qed.

(** ** The block selector *)

(** X14.  [editapp.py] offers 30 block names, one per value of the grid; position
    [i] holds ["Block_"] followed by [i + 1], the names are pairwise
    different, and the select box returns one of them. *)
Theorem block_names_distinct :
  length EditApp.available_blocks = 30%nat /\
  (forall y df np,
     length (fst (grid_health y df np)) = length EditApp.available_blocks) /\
  NoDup EditApp.available_blocks /\
  (forall i, (i < 30)%nat ->
     EditApp.selectbox EditApp.available_blocks i
     = String.append "Block_"%string (Py.str (Z.of_nat i + 1))) /\
  (forall i,
     In (EditApp.selectbox EditApp.available_blocks i) EditApp.available_blocks).
Proof.
  split; [reflexivity |].
  split; [intros y df np; rewrite grid_health_length; reflexivity |].
  split.
  { vm_compute. repeat (constructor; [cbn; intuition discriminate |]). constructor. }
  assert (N : forall i, (i < 30)%nat ->
            EditApp.selectbox EditApp.available_blocks i
            = String.append "Block_"%string (Py.str (Z.of_nat i + 1))).
  { intros i H. unfold EditApp.selectbox, EditApp.available_blocks, Py.range.
    set (f := fun z : Z => String.append "Block_"%string (Py.str (z + 1))).
    rewrite (nth_indep _ _ (f (Z.of_nat 0))) by (rewrite !length_map, length_seq; exact H).
    rewrite (map_nth f), map_nth, seq_nth by exact H.
    reflexivity. }
  split; [exact N |].
  intro i. destruct (Nat.lt_ge_cases i 30) as [H | H].
  - unfold EditApp.selectbox. apply nth_In. exact H.
  - unfold EditApp.selectbox. rewrite nth_overflow by exact H.
    left. reflexivity.
Qed.

Lemma block_names_distinct_witness :
  (16 < 30)%nat /\
  EditApp.selectbox EditApp.available_blocks 16 = "Block_17"%string.
Proof.
  assert (H : (16 < 30)%nat) by lia.
  split; [exact H |].
  exact (proj1 (proj2 (proj2 (proj2 block_names_distinct))) 16%nat H).
Defined.

(** ** Layout of the grid and shape of the curve *)

Section Layout.

Lemma concat_rows_of (n cols : nat) :
  forall l, length l = (n * cols)%nat -> concat (Py.rows_of n cols l) = l.
Proof.
  induction n as [| n IH]; intros l H.
  - destruct l; [reflexivity | discriminate].
  - cbn [Py.rows_of concat]. rewrite IH.
    + apply firstn_skipn.
    + rewrite length_skipn. simpl in H. lia.
Qed.

Lemma grid_data_some (flat : list Q) (rows : list (list Q)) :
  grid_data flat = Some rows ->
  length flat = 30%nat /\ rows = Py.rows_of 6 5 flat.
Proof.
  unfold grid_data, Py.reshape.
  destruct (Nat.eqb (length flat) (6 * 5)) eqn:E; [| discriminate].
  intro H. injection H as <-. apply Nat.eqb_eq in E. split; [exact E | reflexivity].
Qed.

Lemma curve_value_le (df : Q) (m : nat) :
  (m < 25)%nat -> 0 <= df -> nth m (health_curve df) 0 <= 100.
Proof.
  intros H Hd. rewrite (health_curve_nth df m H).
  assert (A : 0 <= inject_Z (Z.of_nat m)) by (apply inject_Z_nonneg; lia).
  assert (B : 0 <= inject_Z (Z.of_nat m) * df) by (apply Qmult_le_0_compat; assumption).
  setoid_replace (inject_Z (Z.of_nat m) * 2 * df) with (2 * (inject_Z (Z.of_nat m) * df))
    by ring.
  set (p := inject_Z (Z.of_nat m) * df) in *. clearbody p.
  lra.
Qed.

Lemma curve_strictly_falls (df : Q) (m1 m2 : nat) :
  (m1 < m2)%nat -> (m2 < 25)%nat -> 0 < df ->
  nth m2 (health_curve df) 0 < nth m1 (health_curve df) 0.
Proof.
  intros H12 H2 Hd.
  rewrite (health_curve_nth df m1) by lia.
  rewrite (health_curve_nth df m2) by lia.
  assert (A : inject_Z (Z.of_nat m1) < inject_Z (Z.of_nat m2))
    by (unfold Qlt; simpl; lia).
  assert (B : inject_Z (Z.of_nat m1) * df < inject_Z (Z.of_nat m2) * df)
    by (apply Qmult_lt_compat_r; assumption).
  setoid_replace (inject_Z (Z.of_nat m1) * 2 * df)
    with (2 * (inject_Z (Z.of_nat m1) * df)) by ring.
  setoid_replace (inject_Z (Z.of_nat m2) * 2 * df)
    with (2 * (inject_Z (Z.of_nat m2) * df)) by ring.
  lra.
Qed.

End Layout.

(** X15.  [reshape(6, 5)] fails exactly when the list does not hold 30 values;
    when it succeeds, reading the rows one after the other gives the list
    back, and this is the case for the grid of every run: no block value is
    lost, repeated or moved. *)
Theorem grid_rows_keep_the_values :
  (forall flat, grid_data flat = None <-> length flat <> 30%nat) /\
  (forall flat rows, grid_data flat = Some rows -> concat rows = flat) /\
  (forall t y c np,
     exists rows,
       shown_grid (fst (App.run t y c np)) = Some rows /\
       concat rows = fst (grid_health y (degradation_factor t) np)) /\
  (forall b t y c w,
     exists rows,
       shown_grid (fst (EditApp.run b t y c w)) = Some rows /\
       concat rows = fst (grid_health y (degradation_factor t) (EditApp.np_random w))).
Proof.
  assert (G : forall y df np,
            exists rows,
              grid_data (fst (grid_health y df np)) = Some rows /\
              concat rows = fst (grid_health y df np)).
  { intros y df np. pose proof (grid_health_length y df np) as L.
    exists (Py.rows_of 6 5 (fst (grid_health y df np))).
    split; [apply grid_data_of_30; exact L |].
    apply concat_rows_of. rewrite L. reflexivity. }
  split; [| split; [| split]].
  - intro flat. unfold grid_data, Py.reshape.
    destruct (Nat.eqb (length flat) (6 * 5)) eqn:E.
    + apply Nat.eqb_eq in E. split; [discriminate | intro N; exfalso; apply N; exact E].
    + apply Nat.eqb_neq in E. split; [intros _; exact E | reflexivity].
  - intros flat rows H. apply grid_data_some in H. destruct H as [L ->].
    apply concat_rows_of. rewrite L. reflexivity.
  - intros t y c np.
    destruct (app_run_shows t y c np) as (_ & _ & _ & _ & _ & ->). apply G.
  - intros b t y c w.
    destruct (editapp_run_shows b t y c w) as (_ & _ & _ & _ & _ & -> & _). apply G.
Qed.

Lemma grid_rows_keep_the_values_witness :
  let flat := map inject_Z (Py.range 30) in
  grid_data flat = Some (Py.rows_of 6 5 flat) /\
  concat (Py.rows_of 6 5 flat) = flat.
Proof.
  intro flat.
  assert (H : grid_data flat = Some (Py.rows_of 6 5 flat)) by reflexivity.
  split; [exact H |].
  exact (proj1 (proj2 grid_rows_keep_the_values) flat _ H).
Defined.

(** X16.  For every temperature the decay curve falls strictly from each
    month to every later month and no point of it exceeds 100, the top of
    the chart being 110. *)
Theorem decay_curve_falls :
  forall (t : Z) (m1 m2 : nat),
    (m1 < m2)%nat -> (m2 < 25)%nat ->
    let curve := health_curve (degradation_factor t) in
    nth m2 curve 0 < nth m1 curve 0 /\
    nth m1 curve 0 <= 100 /\
    100 < snd Show.yaxis_range.
Proof.
  intros t m1 m2 H12 H2 curve. subst curve.
  pose proof (df_pos t) as P.
  split; [apply curve_strictly_falls; assumption |].
  split; [apply curve_value_le; [lia | lra] | reflexivity].
Qed.

Lemma decay_curve_falls_witness :
  (3 < 20)%nat /\ (20 < 25)%nat /\
  nth 20 (health_curve (degradation_factor 31)) 0
  < nth 3 (health_curve (degradation_factor 31)) 0.
Proof.
  assert (A : (3 < 20)%nat) by lia.
  assert (B : (20 < 25)%nat) by lia.
  split; [exact A | split; [exact B |]].
  exact (proj1 (decay_curve_falls 31 3 20 A B)).
Defined.

(** X17.  The decay curve goes under the failure threshold line (50) within the
    24 months exactly for temperatures above 25 degrees: up to 25 degrees
    every point stays above the line, from 26 degrees on the last point is
    below it. *)
Theorem decay_curve_crosses_threshold :
  forall t : Z,
    let curve := health_curve (degradation_factor t) in
    ((t <= 25)%Z ->
       forall m, (m < 25)%nat -> Show.failure_threshold < nth m curve 0) /\
    ((26 <= t)%Z -> nth 24 curve 0 < Show.failure_threshold).
Proof.
  intros t curve. subst curve. unfold Show.failure_threshold.
  pose proof (df_pos t) as P. split.
  - intros Ht m Hm. rewrite (health_curve_nth _ m Hm).
    pose proof (df_monotone t 25 Ht) as D. rewrite df_at_25 in D.
    assert (A : 0 <= inject_Z (Z.of_nat m)) by (apply inject_Z_nonneg; lia).
    assert (B : inject_Z (Z.of_nat m) <= 24)
      by (apply (inject_Z_monotone (Z.of_nat m) 24); lia).
    assert (M : inject_Z (Z.of_nat m) * degradation_factor t <= 24 * 1)
      by (apply Qmult_le_compat_nonneg; split; try assumption; lra).
    setoid_replace (inject_Z (Z.of_nat m) * 2 * degradation_factor t)
      with (2 * (inject_Z (Z.of_nat m) * degradation_factor t)) by ring.
    lra.
  - intro Ht. rewrite (health_curve_nth _ 24) by lia.
    pose proof (df_monotone 26 t Ht) as D.
    assert (E : degradation_factor 26 == 1.2) by reflexivity.
    rewrite E in D.
    change (inject_Z (Z.of_nat 24)) with 24. lra.
Qed.

Lemma decay_curve_crosses_threshold_witness :
  (22 <= 25)%Z /\ (7 < 25)%nat /\ (26 <= 26)%Z /\
  Show.failure_threshold < nth 7 (health_curve (degradation_factor 22)) 0 /\
  nth 24 (health_curve (degradation_factor 26)) 0 < Show.failure_threshold.
Proof.
  assert (A : (22 <= 25)%Z) by lia.
  assert (B : (7 < 25)%nat) by lia.
  assert (C : (26 <= 26)%Z) by lia.
  split; [exact A | split; [exact B | split; [exact C | split]]].
  - exact (proj1 (decay_curve_crosses_threshold 22) A 7%nat B).
  - exact (proj2 (decay_curve_crosses_threshold 26) C).
Defined.

(** ** The grid against the headline health *)

Section Scatter.

Variable y : Z.
Variable t : Z.
Variable j : Q.
Hypothesis y_nonneg : (0 <= y)%Z.
Hypothesis j_ok : jitter_ok j.

Lemma u_nonneg : 0 <= year_factor y t.
Proof.
  unfold year_factor. apply Qmult_le_0_compat; [apply inject_Z_nonneg; exact y_nonneg |].
  apply Qlt_le_weak, df_pos.
Qed.

Lemma uj_bounds :
  0.8 * year_factor y t <= year_factor y t * j <= 1.2 * year_factor y t.
Proof.
  pose proof u_nonneg as U. set (u := year_factor y t) in *. destruct j_ok as [J1 J2].
  assert (A : u * 0.8 <= u * j)
    by (apply Qmult_le_compat_nonneg; split; try assumption; try apply Qle_refl; lra).
  assert (B : u * j <= u * 1.2)
    by (apply Qmult_le_compat_nonneg; split; try assumption; try apply Qle_refl; lra).
  split; lra.
Qed.

Lemma block_raw_formula :
  block_health y (degradation_factor t) j == 100 - 8 * (year_factor y t * j).
Proof. unfold block_health, year_factor. rewrite inject_Z_mult. ring. Qed.

Lemma headline_raw_formula (k : Z) :
  raw_health k y (degradation_factor t) == 100 - inject_Z k * year_factor y t.
Proof. unfold raw_health, year_factor. rewrite inject_Z_mult. ring. Qed.


(** [editapp.py]: a block is never above the headline, which uses rate 6. *)
Lemma block_under_headline :
  let h := current_health 6 t y in
  let v := Py.max 0 (block_health y (degradation_factor t) j) in
  v <= h /\ (0 < h -> (1 <= y)%Z -> v < h).
Proof.
  cbv zeta. unfold current_health.
  pose proof u_nonneg as U. pose proof uj_bounds as [J1 J2].
  pose proof block_raw_formula as Eb.
  pose proof (headline_raw_formula 6) as Eh.
  change (inject_Z 6) with 6 in Eh.
  assert (P : (1 <= y)%Z -> 0 < year_factor y t).
  { intro H. unfold year_factor. apply Qmult_lt_0_compat; [unfold Qlt; simpl; lia | apply df_pos]. }
  set (u := year_factor y t) in *.
  set (rb := block_health y (degradation_factor t) j) in *.
  set (rh := raw_health 6 y (degradation_factor t)) in *.
  set (p := u * j) in *. clearbody p rb rh. clearbody u.
  destruct (min_spec 100 rh) as [[M ->] | [M ->]];
    [destruct (max_spec 0 rh) as [[N ->] | [N ->]]
    | destruct (max_spec 0 100) as [[N ->] | [N ->]]];
    destruct (max_spec 0 rb) as [[K ->] | [K ->]];
    (split; [lra | intros H0 H1; specialize (P H1); lra]).
Qed.

End Scatter.



(** X19.  In [editapp.py], whose headline health uses the rate 6 while the grid
    uses 8, with draws in [0.8, 1.2] no value of the grid is above the health
    shown, and with at least one year every value is strictly below it
    unless the health shown is 0. *)
Theorem editapp_grid_below_health :
  forall (b : nat) (t y c : Z) (w : EditApp.World),
    (0 <= y)%Z ->
    (forall k, jitter_ok (Py.feed (EditApp.np_random w) k)) ->
    let d := fst (EditApp.run b t y c w) in
    exists rows,
      shown_grid d = Some rows /\
      Forall (Forall (fun v => v <= shown_health d /\
                               (0 < shown_health d -> (1 <= y)%Z -> v < shown_health d)))
             rows.
Proof.
  intros b t y c w Hy J d. subst d.
  destruct (editapp_run_shows b t y c w) as (-> & _ & _ & _ & _ & -> & _).
  exists (Py.rows_of 6 5 (fst (grid_health y (degradation_factor t) (EditApp.np_random w)))).
  split; [apply grid_data_of_30, grid_health_length |].
  apply rows_of_Forall.
  rewrite grid_health_unfolded. cbn [fst].
  apply Forall_map, Forall_forall. intros i _.
  apply (block_under_headline y t _ Hy (J _)).
Qed.

Lemma editapp_grid_below_health_witness :
  let w := EditApp.mkWorld EditApp.fresh_session (Py.mkSource (fun _ => 5%Z) 0)
             (Py.mkSource (fun k => if Nat.even k then 0.8 else 1.2) 0) in
  (0 <= 2)%Z /\ (forall k, jitter_ok (Py.feed (EditApp.np_random w) k)) /\
  let d := fst (EditApp.run 0 30 2 500 w) in
  exists rows,
    shown_grid d = Some rows /\
    Forall (Forall (fun v => v <= shown_health d /\
                             (0 < shown_health d -> (1 <= 2)%Z -> v < shown_health d)))
           rows.
Proof.
  intro w.
  assert (Hy : (0 <= 2)%Z) by lia.
  assert (J : forall k, jitter_ok (Py.feed (EditApp.np_random w) k)).
  { intro k. unfold jitter_ok, w. simpl.
    destruct (Nat.even k); split; discriminate. }
  split; [exact Hy | split; [exact J |]].
  exact (editapp_grid_below_health 0 30 2 500 w Hy J).
Defined.
